(** * mod-ollama-chat: the OpenRouter chat client (mod-ollama-chat_api.cpp)

    A shallow embedding of the request builder, the HTTP error classifier,
    the response parser and the top-level query function, together with the
    parts of the C++ standard library, of nlohmann::json and of libcurl that
    these functions call.

    C++ strings are byte strings: [string] (a list of 8-bit [ascii]).
    C++ exceptions are values of [exception] carried by [result]; a [try]
    block with its [catch] clauses is [try_catch]. *)

From Stdlib Require Import String Ascii ZArith List Bool Lia.
From Stdlib Require Import DecimalString DecimalPos SpecFloat.
Import ListNotations.

Local Open Scope string_scope.
Local Open Scope Z_scope.

(* ================================================================== *)
(** * The C++ runtime: exceptions, strings, integer conversion         *)
(* ================================================================== *)

Module Cpp.

(** The dynamic class of a thrown object.  Only the classes that the calls
    in mod-ollama-chat_api.cpp can throw are listed; every one of them
    derives from [std::exception]. *)
Inductive exn_class :=
| runtime_error        (* std::runtime_error *)
| invalid_argument     (* std::invalid_argument, from std::stoi *)
| out_of_range         (* std::out_of_range, from std::stoi *)
| json_parse_error     (* nlohmann::json::parse_error *)
| json_type_error      (* nlohmann::json::type_error *)
| json_out_of_range.   (* nlohmann::json::out_of_range *)

Definition exn_class_eqb (a b : exn_class) : bool :=
  match a, b with
  | runtime_error, runtime_error
  | invalid_argument, invalid_argument
  | out_of_range, out_of_range
  | json_parse_error, json_parse_error
  | json_type_error, json_type_error
  | json_out_of_range, json_out_of_range => true
  | _, _ => false
  end.

(** A thrown object: its class and the text [what()] returns.  [what()] is
    a [const char*]: a reader of it sees the bytes up to the first NUL. *)
Record exception := Exn { class_of : exn_class; what : string }.

(** The outcome of evaluating an expression that may throw. *)
Inductive result (A : Type) :=
| Return (a : A)
| Throw (e : exception).
Arguments Return {A} a.
Arguments Throw {A} e.

Definition bind {A B} (r : result A) (k : A -> result B) : result B :=
  match r with
  | Return a => k a
  | Throw e => Throw e
  end.

(** [try { body } catch (const C& e) { handler }]: the handler runs when the
    thrown object's class satisfies [catches]; other exceptions propagate. *)
Definition try_catch {A} (body : result A) (catches : exn_class -> bool)
           (handler : exception -> result A) : result A :=
  match body with
  | Return a => Return a
  | Throw e => if catches (class_of e) then handler e else Throw e
  end.

(** [catch (const std::exception&)] matches every class above. *)
Definition std_exception (c : exn_class) : bool := true.

Definition throws {A} (r : result A) : Prop := exists e, r = Throw e.

(** ** std::to_string(long) *)
Definition to_string (n : Z) : string := NilZero.string_of_int (Z.to_int n).

(** ** std::string::c_str(): the bytes up to the first NUL. *)
Fixpoint c_str (s : string) : string :=
  match s with
  | EmptyString => EmptyString
  | String c r => if Ascii.eqb c zero then EmptyString else String c (c_str r)
  end.

(** ** std::runtime_error(const std::string&): the object keeps the message
    and hands it out through [what()], as a C string. *)
Definition std_runtime_error (message : string) : exception :=
  Exn runtime_error (c_str message).

(** ** std::stoi(const std::string&), base 10 *)

Definition INT_MIN : Z := - 2 ^ 31.
Definition INT_MAX : Z := 2 ^ 31 - 1.

(** [isspace] in the "C" locale: space, \t, \n, \v, \f, \r. *)
Definition isspace (c : ascii) : bool :=
  let n := nat_of_ascii c in
  Nat.eqb n 32 || (Nat.leb 9 n && Nat.leb n 13).

Definition digit_value (c : ascii) : option Z :=
  let n := nat_of_ascii c in
  if Nat.leb 48 n && Nat.leb n 57 then Some (Z.of_nat (n - 48)) else None.

Fixpoint skip_spaces (s : string) : string :=
  match s with
  | String c r => if isspace c then skip_spaces r else s
  | EmptyString => s
  end.

(** The longest run of decimal digits at the head of [s], accumulated in
    [acc]; [seen] records whether a digit was consumed. *)
Fixpoint scan_digits (s : string) (acc : Z) (seen : bool) : Z * bool :=
  match s with
  | String c r =>
      match digit_value c with
      | Some d => scan_digits r (10 * acc + d) true
      | None => (acc, seen)
      end
  | EmptyString => (acc, seen)
  end.

(** strtol's subject sequence: optional white space, an optional sign, then
    digits; what follows the digits is ignored.  No digits: invalid_argument.
    A value outside [int]: out_of_range. *)
Definition stoi (str : string) : result Z :=
  let s := skip_spaces (c_str str) in
  let '(negative, digits) :=
    match s with
    | String "-"%char r => (true, r)
    | String "+"%char r => (false, r)
    | _ => (false, s)
    end in
  let '(magnitude, seen) := scan_digits digits 0 false in
  if negb seen then Throw (Exn invalid_argument "stoi")
  else
    let v := if negative then - magnitude else magnitude in
    if (INT_MIN <=? v) && (v <=? INT_MAX) then Return v
    else Throw (Exn out_of_range "stoi").

End Cpp.
Import Cpp.

Notation "x <- r ;; k" := (bind r (fun x => k))
  (at level 61, r at next level, right associativity).

(* ================================================================== *)
(** * nlohmann::json: values and the member functions the client calls  *)
(* ================================================================== *)

Module Json.

(** [basic_json]: the value kinds a parsed or constructed document can
    hold.  An object is a [std::map<std::string, json>]: an association
    list kept sorted by key, without duplicate keys ([dump] prints the
    members in that order). *)
#[local] Unset Elimination Schemes.
Inductive json :=
| JNull
| JBoolean (b : bool)
| JInteger (n : Z)               (* number_integer  *)
| JUnsigned (n : Z)              (* number_unsigned *)
| JFloat (f : spec_float)        (* number_float: a binary64 value *)
| JString (s : string)
| JArray (elements : list json)
| JObject (members : list (string * json)).
#[local] Set Elimination Schemes.

(** [type_name()] *)
Definition type_name (j : json) : string :=
  match j with
  | JNull => "null"
  | JBoolean _ => "boolean"
  | JString _ => "string"
  | JArray _ => "array"
  | JObject _ => "object"
  | JInteger _ | JUnsigned _ | JFloat _ => "number"
  end.

Definition type_error (id : string) (msg : string) : exception :=
  Exn json_type_error ("[json.exception.type_error." ++ id ++ "] " ++ msg).

(** ** The map underlying an object *)

Fixpoint obj_find (key : string) (m : list (string * json)) : option json :=
  match m with
  | [] => None
  | (k, v) :: r => if String.eqb key k then Some v else obj_find key r
  end.

(** [m[key] = v] on the map: replaces the value of an existing key, inserts
    a new key at its place in the byte-wise order of the keys. *)
Fixpoint obj_set (key : string) (v : json) (m : list (string * json))
  : list (string * json) :=
  match m with
  | [] => [(key, v)]
  | (k, w) :: r =>
      match String.compare key k with
      | Lt => (key, v) :: (k, w) :: r
      | Eq => (key, v) :: r
      | Gt => (k, w) :: obj_set key v r
      end
  end.

(** ** Accessors *)

(** [j.contains(key)]: false on anything that is not an object. *)
Definition contains (j : json) (key : string) : bool :=
  match j with
  | JObject m => match obj_find key m with Some _ => true | None => false end
  | _ => false
  end.

(** [j.empty()]: null is empty, containers are empty when they have no
    element, every scalar (strings included) is not. *)
Definition empty (j : json) : bool :=
  match j with
  | JNull => true
  | JArray l => match l with [] => true | _ => false end
  | JObject m => match m with [] => true | _ => false end
  | _ => false
  end.

(** [j[key]] read through the non-const [operator[]]: the member when it
    exists; null turns into an object and a missing member is created as
    null, so both read as null; any other kind throws type_error 305. *)
Definition at_key (j : json) (key : string) : result json :=
  match j with
  | JObject m =>
      Return (match obj_find key m with Some v => v | None => JNull end)
  | JNull => Return JNull
  | _ => Throw (type_error "305"
                  ("cannot use operator[] with a string argument with "
                     ++ type_name j))
  end.

(** [j[idx]] read through the non-const [operator[]]: the element of an
    array (an index past the end fills the array with nulls and reads
    null; null turns into an array first); any other kind throws 305. *)
Definition at_index (j : json) (idx : nat) : result json :=
  match j with
  | JArray l => Return (nth idx l JNull)
  | JNull => Return JNull
  | _ => Throw (type_error "305"
                  ("cannot use operator[] with a numeric argument with "
                     ++ type_name j))
  end.

(** [j[key] = v] *)
Definition set_key (j : json) (key : string) (v : json) : result json :=
  match j with
  | JObject m => Return (JObject (obj_set key v m))
  | JNull => Return (JObject [(key, v)])
  | _ => Throw (type_error "305"
                  ("cannot use operator[] with a string argument with "
                     ++ type_name j))
  end.

(** [j.push_back(v)] *)
Definition push_back (j : json) (v : json) : result json :=
  match j with
  | JArray l => Return (JArray (l ++ [v]))
  | JNull => Return (JArray [v])
  | _ => Throw (type_error "308"
                  ("cannot use push_back() with " ++ type_name j))
  end.

(** [j.get<std::string>()] *)
Definition get_string (j : json) : result string :=
  match j with
  | JString s => Return s
  | _ => Throw (type_error "302"
                  ("type must be string, but is " ++ type_name j))
  end.

(** A braced list of [{key, value}] pairs: an object; [emplace] keeps the
    first value of a repeated key. *)
Definition object_of (pairs : list (string * json)) : json :=
  JObject (fold_left
             (fun m kv => match obj_find (fst kv) m with
                          | Some _ => m
                          | None => obj_set (fst kv) (snd kv) m
                          end) pairs []).

(** A [float] stored in a json becomes a [double] (exactly). *)
Definition double_of_float (f : spec_float) : spec_float :=
  match f with
  | S754_finite s m e =>
      binary_normalize 53 1024 (if s then Zneg m else Zpos m) e s
  | _ => f
  end.

(** ** UTF-8 decoding, as the serializer and the lexer check it

    The decoder's states: between code points, or inside one, waiting for
    continuation bytes in the ranges of the well-formed sequences
    (no overlong form, no surrogate, nothing above U+10FFFF). *)
Inductive utf8_state :=
| utf8_accept
| utf8_tail (n : nat)          (* n + 1 bytes 80..BF still to come *)
| utf8_after_E0                (* A0..BF, then one tail byte *)
| utf8_after_ED                (* 80..9F, then one tail byte *)
| utf8_after_F0                (* 90..BF, then two tail bytes *)
| utf8_after_F4.               (* 80..8F, then two tail bytes *)

Definition in_range (lo hi : nat) (c : ascii) : bool :=
  let n := nat_of_ascii c in Nat.leb lo n && Nat.leb n hi.

(** One decoding step; [None] is the reject state. *)
Definition utf8_step (st : utf8_state) (c : ascii) : option utf8_state :=
  match st with
  | utf8_accept =>
      if in_range 0 127 c then Some utf8_accept
      else if in_range 194 223 c then Some (utf8_tail 0)
      else if in_range 224 224 c then Some utf8_after_E0
      else if in_range 237 237 c then Some utf8_after_ED
      else if in_range 225 239 c then Some (utf8_tail 1)
      else if in_range 240 240 c then Some utf8_after_F0
      else if in_range 241 243 c then Some (utf8_tail 2)
      else if in_range 244 244 c then Some utf8_after_F4
      else None
  | utf8_tail n =>
      if in_range 128 191 c
      then Some (match n with O => utf8_accept | S k => utf8_tail k end)
      else None
  | utf8_after_E0 => if in_range 160 191 c then Some (utf8_tail 0) else None
  | utf8_after_ED => if in_range 128 159 c then Some (utf8_tail 0) else None
  | utf8_after_F0 => if in_range 144 191 c then Some (utf8_tail 1) else None
  | utf8_after_F4 => if in_range 128 143 c then Some (utf8_tail 1) else None
  end.

Definition hex_digit (n : nat) : ascii :=
  ascii_of_nat (if Nat.ltb n 10 then 48 + n else 55 + n).

(** Two upper-case hexadecimal digits. *)
Definition hex_byte (c : ascii) : string :=
  let n := nat_of_ascii c in
  String (hex_digit (Nat.div n 16)) (String (hex_digit (Nat.modulo n 16)) "").

(** The scan of one string by the serializer's strict error handler: the
    first rejected byte, or a code point left incomplete at the end, throws
    type_error 316. *)
Fixpoint utf8_check (s : string) (st : utf8_state) (i : Z) (last : ascii)
  : result unit :=
  match s with
  | EmptyString =>
      match st with
      | utf8_accept => Return tt
      | _ => Throw (type_error "316"
                      ("incomplete UTF-8 string; last byte: 0x"
                         ++ hex_byte last))
      end
  | String c r =>
      match utf8_step st c with
      | Some st' => utf8_check r st' (i + 1) c
      | None => Throw (type_error "316"
                         ("invalid UTF-8 byte at index " ++ to_string i
                            ++ ": 0x" ++ hex_byte c))
      end
  end.

Definition utf8_valid (s : string) : bool :=
  match utf8_check s utf8_accept 0 zero with
  | Return _ => true
  | Throw _ => false
  end.

(** ** dump(): serialization without indentation, strict UTF-8 handling *)

Definition dquote : ascii := "034"%char.
Definition backslash : ascii := "092"%char.

(** The escaped form of one byte of a string that passed the UTF-8 check:
    the short escapes, [\u00xx] for the other control characters, every
    other byte (bytes of multi-byte code points included) as it is. *)
Definition escape_byte (c : ascii) : string :=
  let n := nat_of_ascii c in
  if Nat.eqb n 8 then String backslash "b"
  else if Nat.eqb n 9 then String backslash "t"
  else if Nat.eqb n 10 then String backslash "n"
  else if Nat.eqb n 12 then String backslash "f"
  else if Nat.eqb n 13 then String backslash "r"
  else if Nat.eqb n 34 then String backslash (String dquote "")
  else if Nat.eqb n 92 then String backslash (String backslash "")
  else if Nat.leb n 31
       then String backslash
              ("u00" ++ String (if Nat.ltb n 16 then "0" else "1")%char
                          (String (let d := Nat.modulo n 16 in
                                   ascii_of_nat
                                     (if Nat.ltb d 10 then 48 + d else 87 + d))
                             ""))
       else String c "".

Fixpoint escape_bytes (s : string) : string :=
  match s with
  | EmptyString => EmptyString
  | String c r => escape_byte c ++ escape_bytes r
  end.

Definition dump_escaped (s : string) : result string :=
  _ <- utf8_check s utf8_accept 0 zero;;
  Return (escape_bytes s).

Definition is_finite (f : spec_float) : bool :=
  match f with
  | S754_zero _ | S754_finite _ _ _ => true
  | S754_infinity _ | S754_nan => false
  end.

Section Dump.

(** The shortest decimal text that reads back as the same double, as the
    library's float printer produces it.  Its digits play no part in what
    follows: the printer is a parameter. *)
Variable float_to_chars : spec_float -> string.

Definition dump_float (f : spec_float) : string :=
  if is_finite f then float_to_chars f else "null".

(** An array or an object dumps its elements in order (an object in the
    order of its keys), joined by commas; the first string that fails the
    UTF-8 check aborts the whole dump. *)
Fixpoint dump (j : json) : result string :=
  match j with
  | JNull => Return "null"
  | JBoolean b => Return (if b then "true" else "false")
  | JInteger n => Return (to_string n)
  | JUnsigned n => Return (to_string n)
  | JFloat f => Return (dump_float f)
  | JString s =>
      e <- dump_escaped s;;
      Return (String dquote e ++ String dquote "")
  | JArray l =>
      parts <- (fix elements (l : list json) : result (list string) :=
                  match l with
                  | [] => Return []
                  | x :: r =>
                      sx <- dump x;;
                      sr <- elements r;;
                      Return (sx :: sr)
                  end) l;;
      Return ("[" ++ String.concat "," parts ++ "]")
  | JObject m =>
      parts <- (fix members (m : list (string * json))
                  : result (list string) :=
                  match m with
                  | [] => Return []
                  | (k, x) :: r =>
                      sk <- dump_escaped k;;
                      sx <- dump x;;
                      sr <- members r;;
                      Return ((String dquote sk ++ String dquote ":" ++ sx)
                                :: sr)
                  end) m;;
      Return ("{" ++ String.concat "," parts ++ "}")
  end.

(** The two inner loops of [dump], on their own. *)
Fixpoint dump_elements (l : list json) : result (list string) :=
  match l with
  | [] => Return []
  | x :: r =>
      sx <- dump x;;
      sr <- dump_elements r;;
      Return (sx :: sr)
  end.

Fixpoint dump_members (m : list (string * json)) : result (list string) :=
  match m with
  | [] => Return []
  | (k, x) :: r =>
      sk <- dump_escaped k;;
      sx <- dump x;;
      sr <- dump_members r;;
      Return ((String dquote sk ++ String dquote ":" ++ sx) :: sr)
  end.

End Dump.

(** ** parse(): the lexer

    The diagnostic text of a parse error (position, offending token) is not
    reproduced; every syntax error is parse_error 101 with a fixed text. *)

Inductive token :=
| T_begin_array | T_end_array | T_begin_object | T_end_object
| T_name_separator | T_value_separator
| T_literal_true | T_literal_false | T_literal_null
| T_value_string (s : string)
| T_value_unsigned (n : Z)
| T_value_integer (n : Z)
| T_value_float (f : spec_float)
| T_end_of_input
| T_parse_error.

Definition hex_value (c : ascii) : option Z :=
  let n := nat_of_ascii c in
  if in_range 48 57 c then Some (Z.of_nat (n - 48))
  else if in_range 65 70 c then Some (Z.of_nat (n - 55))
  else if in_range 97 102 c then Some (Z.of_nat (n - 87))
  else None.

(** [get_codepoint]: four hexadecimal digits. *)
Definition get_codepoint (h1 h2 h3 h4 : ascii) : option Z :=
  match hex_value h1, hex_value h2, hex_value h3, hex_value h4 with
  | Some a, Some b, Some c, Some d => Some (((a * 16 + b) * 16 + c) * 16 + d)
  | _, _, _, _ => None
  end.

Definition byte_of_Z (z : Z) : ascii := ascii_of_nat (Z.to_nat z).

(** The UTF-8 encoding of a code point read from a [\u] escape. *)
Definition encode_utf8 (cp : Z) : string :=
  if cp <? 128 then String (byte_of_Z cp) ""
  else if cp <=? 2047 then
    String (byte_of_Z (Z.lor 192 (Z.shiftr cp 6)))
      (String (byte_of_Z (Z.lor 128 (Z.land cp 63))) "")
  else if cp <=? 65535 then
    String (byte_of_Z (Z.lor 224 (Z.shiftr cp 12)))
      (String (byte_of_Z (Z.lor 128 (Z.land (Z.shiftr cp 6) 63)))
         (String (byte_of_Z (Z.lor 128 (Z.land cp 63))) ""))
  else
    String (byte_of_Z (Z.lor 240 (Z.shiftr cp 18)))
      (String (byte_of_Z (Z.lor 128 (Z.land (Z.shiftr cp 12) 63)))
         (String (byte_of_Z (Z.lor 128 (Z.land (Z.shiftr cp 6) 63)))
            (String (byte_of_Z (Z.lor 128 (Z.land cp 63))) ""))).

Definition simple_escape (c : ascii) : option ascii :=
  let n := nat_of_ascii c in
  if Nat.eqb n 34 then Some dquote
  else if Nat.eqb n 92 then Some backslash
  else if Nat.eqb n 47 then Some "/"%char
  else if Nat.eqb n 98 then Some "008"%char
  else if Nat.eqb n 102 then Some "012"%char
  else if Nat.eqb n 110 then Some "010"%char
  else if Nat.eqb n 114 then Some "013"%char
  else if Nat.eqb n 116 then Some "009"%char
  else None.

Definition prepend (bytes : string) (r : option (string * nat))
  : option (string * nat) :=
  match r with
  | Some (s, n) => Some (bytes ++ s, n)
  | None => None
  end.

(** [scan_string] on the text after the opening quote: the decoded bytes
    and the number of input bytes read, closing quote included; [None] is
    a lexical error (no closing quote, a bad escape, an unescaped control
    character, ill-formed UTF-8). *)
Fixpoint scan_string (s : string) (st : utf8_state) (n : nat)
  : option (string * nat) :=
  match s with
  | EmptyString => None
  | String c r =>
      match st with
      | utf8_accept =>
          if Ascii.eqb c dquote then Some ("", S n)
          else if Ascii.eqb c backslash then
            match r with
            | EmptyString => None
            | String e r1 =>
                match simple_escape e with
                | Some b => prepend (String b "") (scan_string r1 utf8_accept (2 + n))
                | None =>
                    if Ascii.eqb e "u" then
                      match r1 with
                      | String h1 (String h2 (String h3 (String h4 r5))) =>
                          match get_codepoint h1 h2 h3 h4 with
                          | None => None
                          | Some cp1 =>
                              if (55296 <=? cp1) && (cp1 <=? 56319) then
                                (* a high surrogate: a low one must follow *)
                                match r5 with
                                | String b2 (String u2 (String g1 (String g2
                                    (String g3 (String g4 r11))))) =>
                                    if Ascii.eqb b2 backslash && Ascii.eqb u2 "u"
                                    then
                                      match get_codepoint g1 g2 g3 g4 with
                                      | Some cp2 =>
                                          if (56320 <=? cp2) && (cp2 <=? 57343)
                                          then prepend
                                                 (encode_utf8
                                                    (Z.shiftl cp1 10 + cp2
                                                     - 56613888))
                                                 (scan_string r11 utf8_accept
                                                    (12 + n))
                                          else None
                                      | None => None
                                      end
                                    else None
                                | _ => None
                                end
                              else if (56320 <=? cp1) && (cp1 <=? 57343)
                                   then None
                                   else prepend (encode_utf8 cp1)
                                          (scan_string r5 utf8_accept (6 + n))
                          end
                      | _ => None
                      end
                    else None
                end
            end
          else if in_range 0 31 c then None
          else
            match utf8_step utf8_accept c with
            | Some st' => prepend (String c "") (scan_string r st' (S n))
            | None => None
            end
      | _ =>
          match utf8_step st c with
          | Some st' => prepend (String c "") (scan_string r st' (S n))
          | None => None
          end
      end
  end.

(** The states of [scan_number]. *)
Inductive number_state :=
| ns_init | ns_minus | ns_zero | ns_any1
| ns_decimal1 | ns_decimal2 | ns_exponent | ns_sign | ns_any2.

(** What [scan_number] has read: the sign, the digits of the integer and
    fraction parts as one integer with the number of fraction digits, the
    exponent, and whether a fraction or an exponent was seen. *)
Record number_text := {
  negative : bool;
  digits : Z;
  fraction_digits : Z;
  exponent_negative : bool;
  exponent : Z;
  is_float : bool
}.

Definition number_text0 : number_text :=
  {| negative := false; digits := 0; fraction_digits := 0;
     exponent_negative := false; exponent := 0; is_float := false |}.

Definition is_digit (c : ascii) : bool := in_range 48 57 c.
Definition digit_of (c : ascii) : Z := Z.of_nat (nat_of_ascii c - 48).

Definition accepting (st : number_state) : bool :=
  match st with
  | ns_zero | ns_any1 | ns_decimal2 | ns_any2 => true
  | _ => false
  end.

(** One transition on the byte [c]; [None] when [c] cannot continue the
    number from [st]. *)
Definition number_step (st : number_state) (a : number_text) (c : ascii)
  : option (number_state * number_text) :=
  let int_digit :=
    {| negative := negative a; digits := 10 * digits a + digit_of c;
       fraction_digits := fraction_digits a;
       exponent_negative := exponent_negative a; exponent := exponent a;
       is_float := is_float a |} in
  let frac_digit :=
    {| negative := negative a; digits := 10 * digits a + digit_of c;
       fraction_digits := fraction_digits a + 1;
       exponent_negative := exponent_negative a; exponent := exponent a;
       is_float := true |} in
  let exp_digit :=
    {| negative := negative a; digits := digits a;
       fraction_digits := fraction_digits a;
       exponent_negative := exponent_negative a;
       exponent := 10 * exponent a + digit_of c; is_float := true |} in
  let floating neg_exp :=
    {| negative := negative a; digits := digits a;
       fraction_digits := fraction_digits a;
       exponent_negative := neg_exp; exponent := exponent a;
       is_float := true |} in
  let is_e := Ascii.eqb c "e" || Ascii.eqb c "E" in
  match st with
  | ns_init =>
      if Ascii.eqb c "-" then
        Some (ns_minus,
              {| negative := true; digits := 0; fraction_digits := 0;
                 exponent_negative := false; exponent := 0;
                 is_float := false |})
      else if Ascii.eqb c "0" then Some (ns_zero, int_digit)
      else if is_digit c then Some (ns_any1, int_digit)
      else None
  | ns_minus =>
      if Ascii.eqb c "0" then Some (ns_zero, int_digit)
      else if is_digit c then Some (ns_any1, int_digit)
      else None
  | ns_zero =>
      if Ascii.eqb c "." then Some (ns_decimal1, floating false)
      else if is_e then Some (ns_exponent, floating false)
      else None
  | ns_any1 =>
      if is_digit c then Some (ns_any1, int_digit)
      else if Ascii.eqb c "." then Some (ns_decimal1, floating false)
      else if is_e then Some (ns_exponent, floating false)
      else None
  | ns_decimal1 =>
      if is_digit c then Some (ns_decimal2, frac_digit) else None
  | ns_decimal2 =>
      if is_digit c then Some (ns_decimal2, frac_digit)
      else if is_e then Some (ns_exponent, floating false)
      else None
  | ns_exponent =>
      if Ascii.eqb c "+" then Some (ns_sign, floating false)
      else if Ascii.eqb c "-" then Some (ns_sign, floating true)
      else if is_digit c then Some (ns_any2, exp_digit)
      else None
  | ns_sign =>
      if is_digit c then Some (ns_any2, exp_digit) else None
  | ns_any2 =>
      if is_digit c then Some (ns_any2, exp_digit) else None
  end.

(** [scan_number]: the longest prefix that is a number, with the count of
    bytes read; [None] when the text stops where a digit is required. *)
Fixpoint scan_number (s : string) (st : number_state) (a : number_text)
         (n : nat) : option (number_text * nat) :=
  let stop := if accepting st then Some (a, n) else None in
  match s with
  | EmptyString => stop
  | String c r =>
      match number_step st a c with
      | Some (st', a') => scan_number r st' a' (S n)
      | None => stop
      end
  end.

(** [strtod]: the double nearest to [digits * 10 ^ e10], ties to even. *)
Definition strtod_value (neg : bool) (m : Z) (e10 : Z) : spec_float :=
  if m =? 0 then S754_zero neg
  else if 0 <=? e10
       then binary_normalize 53 1024
              ((if neg then - m else m) * 10 ^ e10) 0 neg
       else
         let '(q, e, l) := SFdiv_core_binary 53 1024 m 0 (10 ^ (- e10)) 0 in
         binary_round_aux 53 1024 neg q e l.

(** The token of a scanned number: an unsigned or signed 64-bit integer
    when the text has no fraction and no exponent and the value fits,
    otherwise a double. *)
Definition number_token (a : number_text) : token :=
  let as_float :=
    T_value_float
      (strtod_value (negative a) (digits a)
         ((if exponent_negative a then - exponent a else exponent a)
          - fraction_digits a)) in
  if is_float a then as_float
  else if negative a
       then if digits a <=? 2 ^ 63 then T_value_integer (- digits a)
            else as_float
       else if digits a <? 2 ^ 64 then T_value_unsigned (digits a)
            else as_float.

Fixpoint starts_with (p s : string) : bool :=
  match p, s with
  | EmptyString, _ => true
  | String a p', String b s' => Ascii.eqb a b && starts_with p' s'
  | String _ _, EmptyString => false
  end.

(** White space between tokens: space, \t, \n, \r. *)
Definition is_whitespace (c : ascii) : bool :=
  let n := nat_of_ascii c in
  Nat.eqb n 32 || Nat.eqb n 9 || Nat.eqb n 10 || Nat.eqb n 13.

(** [scan] repeated to the end of the input.  [skip] counts the bytes of
    the current token still to pass over.  The token list stops at the
    first lexical error; a NUL byte where a token should start reads as the
    end of the input. *)
Fixpoint scan (s : string) (skip : nat) : list token :=
  match s with
  | EmptyString => [T_end_of_input]
  | String c r =>
      match skip with
      | S k => scan r k
      | O =>
          if is_whitespace c then scan r 0
          else if Ascii.eqb c "[" then T_begin_array :: scan r 0
          else if Ascii.eqb c "]" then T_end_array :: scan r 0
          else if Ascii.eqb c "{" then T_begin_object :: scan r 0
          else if Ascii.eqb c "}" then T_end_object :: scan r 0
          else if Ascii.eqb c ":" then T_name_separator :: scan r 0
          else if Ascii.eqb c "," then T_value_separator :: scan r 0
          else if Ascii.eqb c "t" then
            if starts_with "rue" r then T_literal_true :: scan r 3
            else [T_parse_error]
          else if Ascii.eqb c "f" then
            if starts_with "alse" r then T_literal_false :: scan r 4
            else [T_parse_error]
          else if Ascii.eqb c "n" then
            if starts_with "ull" r then T_literal_null :: scan r 3
            else [T_parse_error]
          else if Ascii.eqb c dquote then
            match scan_string r utf8_accept 0 with
            | Some (str, n) => T_value_string str :: scan r n
            | None => [T_parse_error]
            end
          else if Ascii.eqb c "-" || is_digit c then
            match scan_number s ns_init number_text0 0 with
            | Some (a, n) => number_token a :: scan r (Nat.pred n)
            | None => [T_parse_error]
            end
          else if Ascii.eqb c zero then [T_end_of_input]
          else [T_parse_error]
      end
  end.

(** The whole input: a byte-order mark EF BB BF at the start is skipped; EF
    followed by anything else is an error. *)
Definition lex (s : string) : list token :=
  match s with
  | String "239"%char r =>
      match r with
      | String "187"%char (String "191"%char r') => scan r' 0
      | _ => [T_parse_error]
      end
  | _ => scan s 0
  end.

(** ** parse(): the parser, a loop over the tokens with a stack of the
    containers being built *)

Inductive frame :=
| F_array (elements : list json)
| F_object (members : list (string * json)) (key : string).

Inductive parser_state :=
| P_value (stack : list frame)
| P_array_start (stack : list frame)
| P_object_start (stack : list frame)
| P_key (members : list (string * json)) (stack : list frame)
| P_colon (members : list (string * json)) (key : string)
          (stack : list frame)
| P_array_next (elements : list json) (stack : list frame)
| P_object_next (members : list (string * json)) (stack : list frame)
| P_done (document : json).

Definition syntax_error : exception :=
  Exn json_parse_error "[json.exception.parse_error.101] parse error".

Definition number_overflow : exception :=
  Exn json_out_of_range
    "[json.exception.out_of_range.406] number overflow parsing".

(** A finished value goes into the container on top of the stack; a
    repeated key keeps the last value. *)
Definition complete (v : json) (stack : list frame) : parser_state :=
  match stack with
  | [] => P_done v
  | F_array acc :: st => P_array_next (acc ++ [v]) st
  | F_object m key :: st => P_object_next (obj_set key v m) st
  end.

Definition value_token (t : token) (stack : list frame)
  : result parser_state :=
  match t with
  | T_begin_array => Return (P_array_start stack)
  | T_begin_object => Return (P_object_start stack)
  | T_literal_true => Return (complete (JBoolean true) stack)
  | T_literal_false => Return (complete (JBoolean false) stack)
  | T_literal_null => Return (complete JNull stack)
  | T_value_string s => Return (complete (JString s) stack)
  | T_value_unsigned n => Return (complete (JUnsigned n) stack)
  | T_value_integer n => Return (complete (JInteger n) stack)
  | T_value_float f =>
      if is_finite f then Return (complete (JFloat f) stack)
      else Throw number_overflow
  | _ => Throw syntax_error
  end.

Definition parser_step (st : parser_state) (t : token)
  : result parser_state :=
  match st with
  | P_value stack => value_token t stack
  | P_array_start stack =>
      match t with
      | T_end_array => Return (complete (JArray []) stack)
      | _ => value_token t (F_array [] :: stack)
      end
  | P_object_start stack =>
      match t with
      | T_end_object => Return (complete (JObject []) stack)
      | T_value_string k => Return (P_colon [] k stack)
      | _ => Throw syntax_error
      end
  | P_key m stack =>
      match t with
      | T_value_string k => Return (P_colon m k stack)
      | _ => Throw syntax_error
      end
  | P_colon m k stack =>
      match t with
      | T_name_separator => Return (P_value (F_object m k :: stack))
      | _ => Throw syntax_error
      end
  | P_array_next acc stack =>
      match t with
      | T_value_separator => Return (P_value (F_array acc :: stack))
      | T_end_array => Return (complete (JArray acc) stack)
      | _ => Throw syntax_error
      end
  | P_object_next m stack =>
      match t with
      | T_value_separator => Return (P_key m stack)
      | T_end_object => Return (complete (JObject m) stack)
      | _ => Throw syntax_error
      end
  | P_done _ => Throw syntax_error
  end.

Fixpoint parser_run (ts : list token) (st : parser_state) : result json :=
  match ts with
  | [] => Throw syntax_error
  | t :: r =>
      match st, t with
      | P_done v, T_end_of_input => Return v
      | _, _ => st' <- parser_step st t;; parser_run r st'
      end
  end.

(** [nlohmann::json::parse(text)] *)
Definition parse (text : string) : result json :=
  parser_run (lex text) (P_value []).

(** JSON text written with apostrophes in place of double quotes. *)
Fixpoint quoted (s : string) : string :=
  match s with
  | EmptyString => EmptyString
  | String c r => String (if Ascii.eqb c "'" then dquote else c) (quoted r)
  end.

End Json.
Import Json.

(* ================================================================== *)
(** * The client's surroundings: configuration, libcurl, logging        *)
(* ================================================================== *)

(** The globals of mod-ollama-chat_config.h that the client reads.  The
    header is not part of the sources at hand: the two sampling
    temperatures are taken as [float] (they are compared with the [float]
    literals [0.7f] and [0.9f]), the two counts as [int]. *)
Record Config := {
  g_OpenRouterUrl : string;
  g_OpenRouterApiKey : string;
  g_OpenRouterModel : string;
  g_OpenRouterSystemPrompt : string;
  g_OpenRouterTemperature : spec_float;
  g_OpenRouterTopP : spec_float;
  g_OpenRouterTopK : Z;
  g_OpenRouterMaxTokens : Z;
  g_OpenRouterSeed : string;
  g_OpenRouterSiteUrl : string;
  g_OpenRouterSiteName : string;
  g_DebugEnabled : bool
}.

(** The [float] literals [0.7f] and [0.9f]: the binary32 values nearest to
    7/10 and 9/10. *)
Definition float_0_7 : spec_float :=
  Eval cbv in
    (let '(q, e, l) := SFdiv_core_binary 24 128 7 0 10 0 in
     binary_round_aux 24 128 false q e l).
Definition float_0_9 : spec_float :=
  Eval cbv in
    (let '(q, e, l) := SFdiv_core_binary 24 128 9 0 10 0 in
     binary_round_aux 24 128 false q e l).

(** [a != b] on floating-point values (true when either is a NaN). *)
Definition float_ne (a b : spec_float) : bool := negb (SFeqb a b).

(** [std::string::empty()] *)
Definition str_empty (s : string) : bool :=
  match s with EmptyString => true | String _ _ => false end.

(** What one [curl_easy_perform] is asked to do: the options set on the
    handle. *)
Record http_request := {
  CURLOPT_URL : string;
  CURLOPT_POST : Z;
  CURLOPT_POSTFIELDS : string;
  CURLOPT_POSTFIELDSIZE : Z;
  CURLOPT_HTTPHEADER : list string;
  CURLOPT_TIMEOUT : Z;
  CURLOPT_CONNECTTIMEOUT : Z
}.

(** What one [curl_easy_perform] does: its return code, the status code
    [curl_easy_getinfo] reports afterwards, and the pieces of the body
    handed to the write callback, in order. *)
Record transfer := {
  res : Z;
  response_code : Z;
  chunks : list string
}.

Definition CURLE_OK : Z := 0.

(** The behaviour of what lies outside the client: the two library
    functions that are left as parameters, and libcurl with the network
    behind it. *)
Record Env := {
  json_parse : string -> result json;       (* nlohmann::json::parse *)
  float_to_chars : spec_float -> string;    (* the serializer's float printer *)
  curl_easy_init : bool;                    (* is a handle obtained? *)
  curl_easy_perform : http_request -> transfer;
  curl_easy_strerror : Z -> string
}.

(** The observable actions of a call, in the order they happen. *)
Inductive event :=
| LOG_INFO (filter message : string)
| ev_curl_easy_init (handle : bool)
| ev_curl_easy_perform (request : http_request)
| ev_curl_slist_free_all
| ev_curl_easy_cleanup.

(** A computation that acts on the outside: the events it emitted, then
    its value or the exception it threw. *)
Definition M (A : Type) : Type := list event * result A.

Definition ret {A} (a : A) : M A := ([], Return a).

Definition lift {A} (r : result A) : M A := ([], r).

Definition emit (e : event) : M unit := ([e], Return tt).

Definition mbind {A B} (m : M A) (k : A -> M B) : M B :=
  match m with
  | (t, Return a) => let '(t', r) := k a in ((t ++ t')%list, r)
  | (t, Throw e) => (t, Throw e)
  end.

Notation "x <~ m ;; k" := (mbind m (fun x => k))
  (at level 61, m at next level, right associativity).
Notation "m ;;; k" := (mbind m (fun _ => k))
  (at level 61, right associativity).

(** [try { x = body; } catch (const C& e) { handler; return ...; }] followed
    by the rest of the function, [k]: the handler leaves the function. *)
Definition try_or_return {A R} (body : M A) (catches : exn_class -> bool)
           (handler : exception -> M R) (k : A -> M R) : M R :=
  match body with
  | (t, Return a) => let '(t', r) := k a in ((t ++ t')%list, r)
  | (t, Throw e) =>
      if catches (class_of e)
      then let '(t', r) := handler e in ((t ++ t')%list, r)
      else (t, Throw e)
  end.

(** [try { body } catch (const C& e) { handler }] where control goes on
    after the handler. *)
Definition mtry {A} (body : M A) (catches : exn_class -> bool)
           (handler : exception -> M A) : M A :=
  try_or_return body catches handler ret.

(** [if (g_DebugEnabled) { LOG_INFO("server.loading", ...); }] *)
Definition debug_log (cfg : Config) (message : string) : M unit :=
  if g_DebugEnabled cfg then emit (LOG_INFO "server.loading" message)
  else ret tt.

Definition events {A} (m : M A) : list event := fst m.
Definition outcome {A} (m : M A) : result A := snd m.

(* ================================================================== *)
(** * mod-ollama-chat_api.cpp                                          *)
(* ================================================================== *)

(** [WriteCallback]: appends the piece to the buffer, reports its size. *)
Definition WriteCallback (contents : string) (responseBuffer : string)
  : string * Z :=
  (responseBuffer ++ contents, Z.of_nat (String.length contents)).

(** [void HandleOpenRouterErrors(long response_code, const std::string&)]:
    a [switch] on the status code whose [default] arm tests [>= 400]. *)
Definition HandleOpenRouterErrors (response_code : Z) (response_body : string)
  : result unit :=
  match response_code with
  | 400 => Throw (std_runtime_error
                   ("Bad Request: Invalid parameters - " ++ response_body))
  | 401 => Throw (std_runtime_error
                   ("Unauthorized: Invalid API key - " ++ response_body))
  | 402 => Throw (std_runtime_error
                   ("Payment Required: Account issue - " ++ response_body))
  | 429 => Throw (std_runtime_error
                   ("Rate Limited: Too many requests - " ++ response_body))
  | _ =>
      if response_code >=? 400
      then Throw (std_runtime_error
                    ("HTTP Error " ++ to_string response_code ++ " - "
                       ++ response_body))
      else Return tt
  end.

(** [request["messages"].push_back(message)] *)
Definition push_message (request message : json) : result json :=
  messages <- at_key request "messages";;
  messages <- push_back messages message;;
  set_key request "messages" messages.

(** [nlohmann::json ConstructOpenRouterRequest(const std::string& prompt)] *)
Definition ConstructOpenRouterRequest (cfg : Config) (prompt : string)
  : M json :=
  request <~ lift (set_key JNull "model" (JString (g_OpenRouterModel cfg)));;
  request <~ lift (set_key request "messages" (JArray []));;
  request <~ (if negb (str_empty (g_OpenRouterSystemPrompt cfg))
              then lift (push_message request
                           (object_of
                              [("role", JString "system");
                               ("content",
                                JString (g_OpenRouterSystemPrompt cfg))]))
              else ret request);;
  request <~ lift (push_message request
                     (object_of [("role", JString "user");
                                 ("content", JString prompt)]));;
  request <~ (if float_ne (g_OpenRouterTemperature cfg) float_0_7
              then lift (set_key request "temperature"
                           (JFloat (double_of_float
                                      (g_OpenRouterTemperature cfg))))
              else ret request);;
  request <~ (if float_ne (g_OpenRouterTopP cfg) float_0_9
              then lift (set_key request "top_p"
                           (JFloat (double_of_float (g_OpenRouterTopP cfg))))
              else ret request);;
  request <~ (if g_OpenRouterTopK cfg >? 0
              then lift (set_key request "top_k"
                           (JInteger (g_OpenRouterTopK cfg)))
              else ret request);;
  request <~ (if g_OpenRouterMaxTokens cfg >? 0
              then lift (set_key request "max_tokens"
                           (JInteger (g_OpenRouterMaxTokens cfg)))
              else ret request);;
  request <~ (if negb (str_empty (g_OpenRouterSeed cfg))
              then mtry (seed_value <~ lift (stoi (g_OpenRouterSeed cfg));;
                         lift (set_key request "seed" (JInteger seed_value)))
                     std_exception
                     (fun e =>
                        debug_log cfg ("Invalid seed value, ignoring: "
                                         ++ g_OpenRouterSeed cfg);;;
                        ret request)
              else ret request);;
  request <~ lift (set_key request "stream" (JBoolean false));;
  ret request.

(** [std::string ParseOpenRouterResponse(const std::string& response_json)],
    over the library's [parse].  The two [if]s on the way to the content
    fall through to one [throw]; [a && b] evaluates [b] only when [a]
    holds. *)
Definition ParseOpenRouterResponse (parse : string -> result json)
           (response_json : string) : result string :=
  let invalid_format : result string :=
    Throw (std_runtime_error
             "Invalid response format: missing choices or content") in
  try_catch
    (response <- parse response_json;;
     if contains response "error" then
       error <- at_key response "error";;
       error_msg <- (if contains error "message"
                     then message <- at_key error "message";;
                          get_string message
                     else Return "API Error");;
       Throw (std_runtime_error ("OpenRouter API Error: " ++ error_msg))
     else if contains response "choices" then
       choices <- at_key response "choices";;
       if negb (empty choices) then
         choice <- at_index choices 0;;
         if contains choice "message" then
           message <- at_key choice "message";;
           if contains message "content" then
             content <- at_key message "content";;
             get_string content
           else invalid_format
         else invalid_format
       else invalid_format
     else invalid_format)
    (exn_class_eqb json_parse_error)
    (fun e => Throw (std_runtime_error
                       ("Failed to parse JSON response: " ++ c_str (what e)))).

(** The request handed to libcurl.  [curl_slist_append] and [CURLOPT_URL]
    take C strings. *)
Definition build_request (cfg : Config) (requestDataStr : string)
  : http_request :=
  let url := g_OpenRouterUrl cfg in
  let auth_header := "Authorization: Bearer " ++ g_OpenRouterApiKey cfg in
  let headers :=
    ([c_str auth_header; "Content-Type: application/json"]
       ++ (if negb (str_empty (g_OpenRouterSiteUrl cfg))
           then [c_str ("HTTP-Referer: " ++ g_OpenRouterSiteUrl cfg)]
           else [])
       ++ (if negb (str_empty (g_OpenRouterSiteName cfg))
           then [c_str ("X-Title: " ++ g_OpenRouterSiteName cfg)]
           else []))%list in
  {| CURLOPT_URL := c_str url;
     CURLOPT_POST := 1;
     CURLOPT_POSTFIELDS := requestDataStr;
     CURLOPT_POSTFIELDSIZE := Z.of_nat (String.length requestDataStr);
     CURLOPT_HTTPHEADER := headers;
     CURLOPT_TIMEOUT := 30;
     CURLOPT_CONNECTTIMEOUT := 10 |}.

(** [curl_easy_init()], seen from outside. *)
Definition do_curl_easy_init (env : Env) : M bool :=
  emit (ev_curl_easy_init (curl_easy_init env));;; ret (curl_easy_init env).

(** The buffer once the write callback has received every piece. *)
Definition response_buffer (t : transfer) : string :=
  fold_left (fun buffer piece => fst (WriteCallback piece buffer))
    (chunks t) "".

(** [curl_easy_perform(curl)] and the [curl_easy_getinfo] after it: the
    return code, the status code, and the filled buffer. *)
Definition do_curl_easy_perform (env : Env) (request : http_request)
  : M (Z * Z * string) :=
  emit (ev_curl_easy_perform request);;;
  let t := curl_easy_perform env request in
  ret (res t, response_code t, response_buffer t).

(** [std::string QueryOllamaAPI(const std::string& prompt)].  A log line
    built from [e.what()] formats a C string. *)
Definition QueryOllamaAPI (env : Env) (cfg : Config) (prompt : string)
  : M string :=
  if str_empty (g_OpenRouterApiKey cfg) then
    debug_log cfg "OpenRouter API key not configured.";;;
    ret "AI service not properly configured."
  else
    curl <~ do_curl_easy_init env;;
    if negb curl then
      debug_log cfg "Failed to initialize cURL.";;;
      ret "Hmm... I'm lost in thought."
    else
      try_or_return (ConstructOpenRouterRequest cfg prompt) std_exception
        (fun e =>
           debug_log cfg ("Failed to construct request: " ++ c_str (what e));;;
           emit ev_curl_easy_cleanup;;;
           ret "Error preparing request.")
        (fun requestData =>
      requestDataStr <~ lift (dump (float_to_chars env) requestData);;
      performed <~ do_curl_easy_perform env
                     (build_request cfg requestDataStr);;
      let '(res, response_code, responseBuffer) := performed in
      emit ev_curl_slist_free_all;;;
      emit ev_curl_easy_cleanup;;;
      if negb (res =? CURLE_OK) then
        debug_log cfg ("Failed to reach OpenRouter AI. cURL error: "
                         ++ curl_easy_strerror env res);;;
        ret "Failed to reach OpenRouter AI."
      else
        try_or_return
          (lift (HandleOpenRouterErrors response_code responseBuffer))
          std_exception
          (fun e =>
             debug_log cfg ("OpenRouter API Error: " ++ c_str (what e));;;
             ret "AI service error occurred.")
          (fun _ =>
        try_or_return
          (lift (ParseOpenRouterResponse (json_parse env) responseBuffer))
          std_exception
          (fun e =>
             debug_log cfg ("Response parsing error: " ++ c_str (what e));;;
             ret "Error processing response.")
          (fun botReply =>
        if str_empty botReply then
          debug_log cfg "No valid response extracted.";;;
          ret "I'm having trouble understanding."
        else
          debug_log cfg ("Parsed bot response: " ++ botReply);;;
          ret botReply))).

(* ================================================================== *)
(** * Observations used to state the properties                        *)
(* ================================================================== *)

(** The value stored under [key] in an object, if any. *)
Definition member (j : json) (key : string) : option json :=
  match j with
  | JObject m => obj_find key m
  | _ => None
  end.

(** The messages the builder pushes, in order. *)
Definition system_message (cfg : Config) : json :=
  JObject [("content", JString (g_OpenRouterSystemPrompt cfg));
           ("role", JString "system")].

Definition user_message (prompt : string) : json :=
  JObject [("content", JString prompt); ("role", JString "user")].

Definition request_messages (cfg : Config) (prompt : string) : list json :=
  ((if str_empty (g_OpenRouterSystemPrompt cfg) then []
    else [system_message cfg]) ++ [user_message prompt])%list.

(** The members of the request the builder returns, as the chain of
    insertions that produces them. *)
Definition request_members (cfg : Config) (prompt : string)
  : list (string * json) :=
  let m0 := [("messages", JArray (request_messages cfg prompt));
             ("model", JString (g_OpenRouterModel cfg))] in
  let m1 := if float_ne (g_OpenRouterTemperature cfg) float_0_7
            then obj_set "temperature"
                   (JFloat (double_of_float (g_OpenRouterTemperature cfg))) m0
            else m0 in
  let m2 := if float_ne (g_OpenRouterTopP cfg) float_0_9
            then obj_set "top_p"
                   (JFloat (double_of_float (g_OpenRouterTopP cfg))) m1
            else m1 in
  let m3 := if g_OpenRouterTopK cfg >? 0
            then obj_set "top_k" (JInteger (g_OpenRouterTopK cfg)) m2
            else m2 in
  let m4 := if g_OpenRouterMaxTokens cfg >? 0
            then obj_set "max_tokens" (JInteger (g_OpenRouterMaxTokens cfg)) m3
            else m3 in
  let m5 := if str_empty (g_OpenRouterSeed cfg) then m4
            else match stoi (g_OpenRouterSeed cfg) with
                 | Return v => obj_set "seed" (JInteger v) m4
                 | Throw _ => m4
                 end in
  obj_set "stream" (JBoolean false) m5.

(** What the builder logs: the one line about a seed it could not read. *)
Definition request_log (cfg : Config) : list event :=
  if str_empty (g_OpenRouterSeed cfg) then []
  else match stoi (g_OpenRouterSeed cfg) with
       | Return _ => []
       | Throw _ =>
           if g_DebugEnabled cfg
           then [LOG_INFO "server.loading"
                   ("Invalid seed value, ignoring: " ++ g_OpenRouterSeed cfg)]
           else []
       end.

(** The role of a message. *)
Definition role_of (message : json) : option json := member message "role".

(** The statements of the parser's [try] block that follow the parse. *)
Definition extract_reply (response : json) : result string :=
  if contains response "error" then
    error <- at_key response "error";;
    error_msg <- (if contains error "message"
                  then message <- at_key error "message";;
                       get_string message
                  else Return "API Error");;
    Throw (std_runtime_error ("OpenRouter API Error: " ++ error_msg))
  else if contains response "choices" then
    choices <- at_key response "choices";;
    if negb (empty choices) then
      choice <- at_index choices 0;;
      if contains choice "message" then
        message <- at_key choice "message";;
        if contains message "content" then
          content <- at_key message "content";;
          get_string content
        else Throw (std_runtime_error
                       "Invalid response format: missing choices or content")
      else Throw (std_runtime_error
                     "Invalid response format: missing choices or content")
    else Throw (std_runtime_error
                   "Invalid response format: missing choices or content")
  else Throw (std_runtime_error
                 "Invalid response format: missing choices or content").

(** The dump of [j] returns a text. *)
Definition dumps (float_to_chars : spec_float -> string) (j : json) : Prop :=
  exists text, dump float_to_chars j = Return text.

(** The shapes without the expected content: no "choices" member, an empty
    one, or an array whose first choice has no "message" member or a
    message without a "content" member. *)
Definition lacks_content (response : json) : Prop :=
  member response "choices" = None
  \/ (exists choices,
         member response "choices" = Some choices /\ empty choices = true)
  \/ (exists choice others,
         member response "choices" = Some (JArray (choice :: others))
         /\ (member choice "message" = None
             \/ exists message,
                 member choice "message" = Some message
                 /\ member message "content" = None)).

(** The replies the function substitutes for a failure. *)
Definition fallback_replies : list string :=
  ["AI service not properly configured.";
   "Hmm... I'm lost in thought.";
   "Error preparing request.";
   "Failed to reach OpenRouter AI.";
   "AI service error occurred.";
   "Error processing response.";
   "I'm having trouble understanding."].

(** What [debug_log] emits. *)
Definition debug_events (cfg : Config) (message : string) : list event :=
  if g_DebugEnabled cfg then [LOG_INFO "server.loading" message] else [].

(** The events of a call that got as far as sending [request]: the handle,
    the builder's log, the transfer, the two releases, then [tail]. *)
Definition sent_events (cfg : Config) (request : http_request)
           (tail : list event) : list event :=
  (ev_curl_easy_init true
     :: request_log cfg
     ++ ev_curl_easy_perform request
     :: ev_curl_slist_free_all :: ev_curl_easy_cleanup :: tail)%list.

Definition is_log (e : event) : Prop :=
  match e with LOG_INFO _ _ => True | _ => False end.

(** ** Sample configurations, bodies and surroundings *)

(** Every sampling parameter at its default, no system prompt, no seed. *)
Definition default_config : Config :=
  {| g_OpenRouterUrl := "https://openrouter.ai/api/v1/chat/completions";
     g_OpenRouterApiKey := "sk-or-v1-0000";
     g_OpenRouterModel := "openai/gpt-4o-mini";
     g_OpenRouterSystemPrompt := "";
     g_OpenRouterTemperature := float_0_7;
     g_OpenRouterTopP := float_0_9;
     g_OpenRouterTopK := 0;
     g_OpenRouterMaxTokens := 0;
     g_OpenRouterSeed := "";
     g_OpenRouterSiteUrl := "";
     g_OpenRouterSiteName := "";
     g_DebugEnabled := false |}.

Definition with_seed (cfg : Config) (seed : string) : Config :=
  {| g_OpenRouterUrl := g_OpenRouterUrl cfg;
     g_OpenRouterApiKey := g_OpenRouterApiKey cfg;
     g_OpenRouterModel := g_OpenRouterModel cfg;
     g_OpenRouterSystemPrompt := g_OpenRouterSystemPrompt cfg;
     g_OpenRouterTemperature := g_OpenRouterTemperature cfg;
     g_OpenRouterTopP := g_OpenRouterTopP cfg;
     g_OpenRouterTopK := g_OpenRouterTopK cfg;
     g_OpenRouterMaxTokens := g_OpenRouterMaxTokens cfg;
     g_OpenRouterSeed := seed;
     g_OpenRouterSiteUrl := g_OpenRouterSiteUrl cfg;
     g_OpenRouterSiteName := g_OpenRouterSiteName cfg;
     g_DebugEnabled := g_DebugEnabled cfg |}.

Definition with_api_key (cfg : Config) (key : string) : Config :=
  {| g_OpenRouterUrl := g_OpenRouterUrl cfg;
     g_OpenRouterApiKey := key;
     g_OpenRouterModel := g_OpenRouterModel cfg;
     g_OpenRouterSystemPrompt := g_OpenRouterSystemPrompt cfg;
     g_OpenRouterTemperature := g_OpenRouterTemperature cfg;
     g_OpenRouterTopP := g_OpenRouterTopP cfg;
     g_OpenRouterTopK := g_OpenRouterTopK cfg;
     g_OpenRouterMaxTokens := g_OpenRouterMaxTokens cfg;
     g_OpenRouterSeed := g_OpenRouterSeed cfg;
     g_OpenRouterSiteUrl := g_OpenRouterSiteUrl cfg;
     g_OpenRouterSiteName := g_OpenRouterSiteName cfg;
     g_DebugEnabled := g_DebugEnabled cfg |}.

Definition with_debug (cfg : Config) : Config :=
  {| g_OpenRouterUrl := g_OpenRouterUrl cfg;
     g_OpenRouterApiKey := g_OpenRouterApiKey cfg;
     g_OpenRouterModel := g_OpenRouterModel cfg;
     g_OpenRouterSystemPrompt := g_OpenRouterSystemPrompt cfg;
     g_OpenRouterTemperature := g_OpenRouterTemperature cfg;
     g_OpenRouterTopP := g_OpenRouterTopP cfg;
     g_OpenRouterTopK := g_OpenRouterTopK cfg;
     g_OpenRouterMaxTokens := g_OpenRouterMaxTokens cfg;
     g_OpenRouterSeed := g_OpenRouterSeed cfg;
     g_OpenRouterSiteUrl := g_OpenRouterSiteUrl cfg;
     g_OpenRouterSiteName := g_OpenRouterSiteName cfg;
     g_DebugEnabled := true |}.

(** Response bodies. *)
Definition body_hello : string :=
  quoted "{'choices':[{'message':{'content':'hello'}}]}".
Definition body_bad_key : string :=
  quoted "{'error':{'message':'bad key'}}".
Definition body_error_and_choices : string :=
  quoted "{'error':{'code':402},'choices':[{'message':{'content':'hi'}}]}".
Definition body_error_message_42 : string :=
  quoted "{'error':{'message':42}}".
Definition body_no_choices : string := quoted "{'id':'gen-1'}".
Definition body_null_content : string :=
  quoted "{'choices':[{'message':{'content':null}}]}".
Definition body_empty_content : string :=
  quoted "{'choices':[{'message':{'content':''}}]}".
Definition body_choices_string : string := quoted "{'choices':'none'}".
Definition body_malformed : string := quoted "{'choices':[".

(** The bytes [a], NUL, [b]. *)
Definition body_a_nul_b : string := String "a" (String zero "b").
(** An error message holding an escaped NUL. *)
Definition body_error_message_nul : string :=
  String.concat (String backslash "")
    [quoted "{'error':{'message':'a"; quoted "u0000b'}}"].
(** A number beyond the range of a double next to the expected members. *)
Definition body_error_and_overflow : string :=
  quoted "{'error':{'message':'bad key'},'x':1e999}".
Definition body_hello_and_overflow : string :=
  quoted "{'choices':[{'message':{'content':'hello'}}],'x':1e999}".
(** Text that is not a JSON document: an array left open after a number
    beyond the range of a double. *)
Definition body_open_array_overflow : string := "[1e999".
(** A document followed by a NUL byte and more bytes. *)
Definition body_hello_nul_garbage : string :=
  body_hello ++ String zero "}garbage{".

(** Surroundings in which a handle is obtained when [handle] holds and the
    one transfer ends with return code [res], status [code] and [body],
    delivered in one piece. *)
Definition sample_env (handle : bool) (res code : Z) (body : string) : Env :=
  {| json_parse := Json.parse;
     float_to_chars := fun _ => "0.0";
     curl_easy_init := handle;
     curl_easy_perform :=
       fun _ => {| res := res; response_code := code; chunks := [body] |};
     curl_easy_strerror := fun _ => "Couldn't connect to server" |}.

(** A prompt that is not UTF-8: the single byte FF. *)
Definition prompt_FF : string := String "255"%char "".

(** Does [s] hold no NUL byte? *)
Fixpoint no_nul (s : string) : bool :=
  match s with
  | EmptyString => true
  | String c r => negb (Ascii.eqb c zero) && no_nul r
  end.

(** ** Observations for the properties beyond the builder and the parser *)

(** Does [s] start with a decimal digit? *)
Definition starts_with_digit (s : string) : bool :=
  match s with
  | String c _ => match digit_value c with Some _ => true | None => false end
  | EmptyString => false
  end.

(** The configuration with its debug flag set to [b]. *)
Definition set_debug (b : bool) (cfg : Config) : Config :=
  {| g_OpenRouterUrl := g_OpenRouterUrl cfg;
     g_OpenRouterApiKey := g_OpenRouterApiKey cfg;
     g_OpenRouterModel := g_OpenRouterModel cfg;
     g_OpenRouterSystemPrompt := g_OpenRouterSystemPrompt cfg;
     g_OpenRouterTemperature := g_OpenRouterTemperature cfg;
     g_OpenRouterTopP := g_OpenRouterTopP cfg;
     g_OpenRouterTopK := g_OpenRouterTopK cfg;
     g_OpenRouterMaxTokens := g_OpenRouterMaxTokens cfg;
     g_OpenRouterSeed := g_OpenRouterSeed cfg;
     g_OpenRouterSiteUrl := g_OpenRouterSiteUrl cfg;
     g_OpenRouterSiteName := g_OpenRouterSiteName cfg;
     g_DebugEnabled := b |}.

Definition is_perform (e : event) : bool :=
  match e with ev_curl_easy_perform _ => true | _ => false end.

Definition not_log (e : event) : bool :=
  match e with LOG_INFO _ _ => false | _ => true end.

(** The call gets as far as the transfer, and [t] is what the transfer
    does: the key is set, a handle is obtained, the built request dumps. *)
Definition transfer_of (env : Env) (cfg : Config) (prompt : string)
           (t : transfer) : Prop :=
  g_OpenRouterApiKey cfg <> ""
  /\ curl_easy_init env = true
  /\ exists requestData requestDataStr,
      outcome (ConstructOpenRouterRequest cfg prompt) = Return requestData
      /\ dump (float_to_chars env) requestData = Return requestDataStr
      /\ curl_easy_perform env (build_request cfg requestDataStr) = t.

(** The default configuration with the two attribution fields set. *)
Definition attributed_config : Config :=
  {| g_OpenRouterUrl := g_OpenRouterUrl default_config;
     g_OpenRouterApiKey := g_OpenRouterApiKey default_config;
     g_OpenRouterModel := g_OpenRouterModel default_config;
     g_OpenRouterSystemPrompt := "";
     g_OpenRouterTemperature := float_0_7;
     g_OpenRouterTopP := float_0_9;
     g_OpenRouterTopK := 0;
     g_OpenRouterMaxTokens := 0;
     g_OpenRouterSeed := "";
     g_OpenRouterSiteUrl := "https://example.org";
     g_OpenRouterSiteName := "Azeroth";
     g_DebugEnabled := false |}.

(** Every byte of [s] is below 128. *)
Fixpoint is_ascii (s : string) : bool :=
  match s with
  | EmptyString => true
  | String c r => Nat.ltb (nat_of_ascii c) 128 && is_ascii r
  end.

(** The keys the builder may set. *)
Definition request_keys : list string :=
  ["model"; "messages"; "temperature"; "top_p"; "top_k"; "max_tokens";
   "seed"; "stream"].

(** Surroundings that differ from [env] only in the transfers. *)
Definition with_perform (env : Env) (perform : http_request -> transfer)
  : Env :=
  {| json_parse := json_parse env;
     float_to_chars := float_to_chars env;
     curl_easy_init := curl_easy_init env;
     curl_easy_perform := perform;
     curl_easy_strerror := curl_easy_strerror env |}.

(* ================================================================== *)
(** * Properties                                                       *)
(* ================================================================== *)

(** ** Checks on concrete inputs *)

Example to_string_503 : to_string 503 = "503".
Proof. reflexivity. Qed.

Example to_string_negative : to_string (-12) = "-12".
Proof. reflexivity. Qed.

Example stoi_leading_space_and_sign : stoi "  +42abc" = Return 42.
Proof. reflexivity. Qed.

Example stoi_negative : stoi "-7" = Return (-7).
Proof. reflexivity. Qed.

Example stoi_no_digit : stoi "abc" = Throw (Exn invalid_argument "stoi").
Proof. reflexivity. Qed.

Example stoi_INT_MAX : stoi "2147483647" = Return 2147483647.
Proof. reflexivity. Qed.

Example stoi_above_INT_MAX :
  stoi "2147483648" = Throw (Exn out_of_range "stoi").
Proof. reflexivity. Qed.

Example quoted_apostrophes :
  quoted "{'a':1}"
  = String "{" (String dquote (String "a" (String dquote ":1}"))).
Proof. reflexivity. Qed.

Example float_0_7_bits : float_0_7 = S754_finite false 11744051 (-24).
Proof. reflexivity. Qed.

Example float_0_9_bits : float_0_9 = S754_finite false 15099494 (-24).
Proof. reflexivity. Qed.

Example parse_scalars_and_containers :
  Json.parse (quoted " [1, -2, 0.5, true, null, 'aé', {'b':1,'a':{},'b':[]}] ")
  = Return (JArray
              [JUnsigned 1; JInteger (-2);
               JFloat (S754_finite false 4503599627370496 (-53));
               JBoolean true; JNull;
               JString (String "a" (String "195" (String "169" "")));
               JObject [("a", JObject []); ("b", JArray [])]]).
Proof. reflexivity. Qed.

Example parse_trailing_comma :
  Json.parse (quoted "{'a':1,}") = Throw syntax_error.
Proof. reflexivity. Qed.

Example parse_leading_zero : Json.parse "01" = Throw syntax_error.
Proof. reflexivity. Qed.

Example parse_empty_input : Json.parse "" = Throw syntax_error.
Proof. reflexivity. Qed.

Example parse_number_overflow : Json.parse "[1e999]" = Throw number_overflow.
Proof. reflexivity. Qed.

Example parse_ill_formed_utf8 :
  Json.parse (String dquote (String "255" (String dquote "")))
  = Throw syntax_error.
Proof. reflexivity. Qed.

Example dump_nested :
  dump (fun _ => "0.5")
    (JObject [("a", JArray [JInteger (-1); JFloat S754_nan;
                            JString (quoted "x'y")]);
              ("b", JObject [])])
  = Return (quoted "{'a':[-1,null,'x\'y'],'b':{}}").
Proof. reflexivity. Qed.

Example dump_truncated_code_point :
  dump (fun _ => "0.5") (JString (String "195" ""))
  = Throw (Exn json_type_error
             "[json.exception.type_error.316] incomplete UTF-8 string; last byte: 0xC3").
Proof. reflexivity. Qed.

(** One whole call: the request that leaves, the reply that comes back. *)
Example QueryOllamaAPI_hello :
  QueryOllamaAPI (sample_env true 0 200 body_hello) default_config "hi"
  = ([ev_curl_easy_init true;
      ev_curl_easy_perform
        {| CURLOPT_URL := "https://openrouter.ai/api/v1/chat/completions";
           CURLOPT_POST := 1;
           CURLOPT_POSTFIELDS :=
             quoted "{'messages':[{'content':'hi','role':'user'}],'model':'openai/gpt-4o-mini','stream':false}";
           CURLOPT_POSTFIELDSIZE := 89;
           CURLOPT_HTTPHEADER :=
             ["Authorization: Bearer sk-or-v1-0000";
              "Content-Type: application/json"];
           CURLOPT_TIMEOUT := 30;
           CURLOPT_CONNECTTIMEOUT := 10 |};
      ev_curl_slist_free_all; ev_curl_easy_cleanup],
     Return "hello").
Proof. reflexivity. Qed.

Example QueryOllamaAPI_transport_failure :
  outcome (QueryOllamaAPI (sample_env true 7 0 "") default_config "hi")
  = Return "Failed to reach OpenRouter AI.".
Proof. reflexivity. Qed.

Example QueryOllamaAPI_http_401 :
  outcome (QueryOllamaAPI (sample_env true 0 401 body_hello)
             default_config "hi")
  = Return "AI service error occurred.".
Proof. reflexivity. Qed.

Example QueryOllamaAPI_error_in_200_body :
  outcome (QueryOllamaAPI (sample_env true 0 200 body_bad_key)
             default_config "hi")
  = Return "Error processing response.".
Proof. reflexivity. Qed.

Example QueryOllamaAPI_malformed_body :
  outcome (QueryOllamaAPI (sample_env true 0 200 body_malformed)
             default_config "hi")
  = Return "Error processing response.".
Proof. reflexivity. Qed.

Example QueryOllamaAPI_empty_reply :
  outcome (QueryOllamaAPI (sample_env true 0 200 body_empty_content)
             default_config "hi")
  = Return "I'm having trouble understanding.".
Proof. reflexivity. Qed.

Example QueryOllamaAPI_debug_log :
  events (QueryOllamaAPI (sample_env true 0 200 body_null_content)
            (with_debug (with_api_key default_config "")) "hi")
  = [LOG_INFO "server.loading" "OpenRouter API key not configured."].
Proof. reflexivity. Qed.

(** [what()] is a C string: an error text built from a body that holds a
    NUL byte stops there, in the thrown object and in the debug line. *)
Example HandleOpenRouterErrors_nul_in_body :
  HandleOpenRouterErrors 500 body_a_nul_b
  = Throw (Exn runtime_error "HTTP Error 500 - a").
Proof. reflexivity. Qed.

Example QueryOllamaAPI_http_401_debug_line :
  last (events (QueryOllamaAPI (sample_env true 0 401 body_a_nul_b)
                  (with_debug default_config) "hi"))
       ev_curl_easy_cleanup
  = LOG_INFO "server.loading"
      "OpenRouter API Error: Unauthorized: Invalid API key - a".
Proof. reflexivity. Qed.

(** A content that is not a string, a "choices" that is not an array: the
    library's type errors, which the query function turns into its
    processing-error reply. *)
Example ParseOpenRouterResponse_null_content :
  ParseOpenRouterResponse Json.parse body_null_content
  = Throw (type_error "302" "type must be string, but is null").
Proof. reflexivity. Qed.

(** A number too large for a double: the library throws out_of_range, which
    the parser's [catch] clause lets through. *)
Example ParseOpenRouterResponse_number_overflow :
  ParseOpenRouterResponse Json.parse (quoted "{'usage':1e999}")
  = Throw number_overflow.
Proof. reflexivity. Qed.

Example ParseOpenRouterResponse_choices_string :
  ParseOpenRouterResponse Json.parse body_choices_string
  = Throw (type_error "305"
             "cannot use operator[] with a numeric argument with string").
Proof. reflexivity. Qed.

(** ** The object map *)

Lemma compare_refl (s : string) : String.compare s s = Eq.
Proof.
  pose proof (String.compare_antisym s s) as H.
  destruct (String.compare s s); simpl in H; congruence.
Qed.

Lemma compare_neq (a b : string) :
  String.compare a b <> Eq -> String.eqb b a = false.
Proof.
  intros H. apply String.eqb_neq. intros ->. apply H, compare_refl.
Qed.

(** Looking up after an insertion. *)
Lemma obj_find_set (k key : string) (v : json) (m : list (string * json)) :
  obj_find k (obj_set key v m)
  = if String.eqb k key then Some v else obj_find k m.
Proof.
  induction m as [|[k0 w] r IH]; simpl.
  - reflexivity.
  - destruct (String.compare key k0) eqn:Hc; simpl.
    + apply String.compare_eq_iff in Hc. subst k0.
      destruct (String.eqb k key); reflexivity.
    + reflexivity.
    + rewrite IH.
      destruct (String.eqb k k0) eqn:Hk; [|reflexivity].
      apply String.eqb_eq in Hk. subst k0.
      rewrite (compare_neq key k); [reflexivity|].
      rewrite Hc. discriminate.
Qed.

Lemma obj_find_In (k : string) (v : json) (m : list (string * json)) :
  obj_find k m = Some v -> In (k, v) m.
Proof.
  induction m as [|[k0 w] r IH]; simpl; [discriminate|].
  destruct (String.eqb k k0) eqn:Hk.
  - apply String.eqb_eq in Hk. intros [= ->]. left. congruence.
  - intros H. right. auto.
Qed.

Lemma contains_member (j : json) (key : string) :
  contains j key = match member j key with Some _ => true | None => false end.
Proof. destruct j; reflexivity. Qed.

(** ** The request builder, in closed form *)

Lemma ConstructOpenRouterRequest_eq (cfg : Config) (prompt : string) :
  ConstructOpenRouterRequest cfg prompt
  = (request_log cfg, Return (JObject (request_members cfg prompt))).
Proof.
  unfold ConstructOpenRouterRequest, request_members, request_log,
    request_messages, system_message, user_message, debug_log.
  destruct (str_empty (g_OpenRouterSystemPrompt cfg));
    destruct (float_ne (g_OpenRouterTemperature cfg) float_0_7);
    destruct (float_ne (g_OpenRouterTopP cfg) float_0_9);
    destruct (g_OpenRouterTopK cfg >? 0);
    destruct (g_OpenRouterMaxTokens cfg >? 0);
    destruct (str_empty (g_OpenRouterSeed cfg));
    try reflexivity;
    destruct (stoi (g_OpenRouterSeed cfg));
    try reflexivity;
    destruct (g_DebugEnabled cfg); reflexivity.
Qed.

(** One member of the built request: the conditions are split and the
    insertions on the literal keys are computed. *)
Ltac request_cases cfg :=
  unfold request_members, request_messages;
  destruct (str_empty (g_OpenRouterSystemPrompt cfg));
  destruct (float_ne (g_OpenRouterTemperature cfg) float_0_7);
  destruct (float_ne (g_OpenRouterTopP cfg) float_0_9);
  destruct (g_OpenRouterTopK cfg >? 0);
  destruct (g_OpenRouterMaxTokens cfg >? 0);
  destruct (str_empty (g_OpenRouterSeed cfg));
  try destruct (stoi (g_OpenRouterSeed cfg)).

Lemma request_member_messages (cfg : Config) (prompt : string) :
  obj_find "messages" (request_members cfg prompt)
  = Some (JArray (request_messages cfg prompt)).
Proof. request_cases cfg; reflexivity. Qed.

Lemma request_member_temperature (cfg : Config) (prompt : string) :
  obj_find "temperature" (request_members cfg prompt)
  = if float_ne (g_OpenRouterTemperature cfg) float_0_7
    then Some (JFloat (double_of_float (g_OpenRouterTemperature cfg)))
    else None.
Proof. request_cases cfg; reflexivity. Qed.

Lemma request_member_top_p (cfg : Config) (prompt : string) :
  obj_find "top_p" (request_members cfg prompt)
  = if float_ne (g_OpenRouterTopP cfg) float_0_9
    then Some (JFloat (double_of_float (g_OpenRouterTopP cfg)))
    else None.
Proof. request_cases cfg; reflexivity. Qed.

Lemma request_member_top_k (cfg : Config) (prompt : string) :
  obj_find "top_k" (request_members cfg prompt)
  = if g_OpenRouterTopK cfg >? 0
    then Some (JInteger (g_OpenRouterTopK cfg)) else None.
Proof. request_cases cfg; reflexivity. Qed.

Lemma request_member_max_tokens (cfg : Config) (prompt : string) :
  obj_find "max_tokens" (request_members cfg prompt)
  = if g_OpenRouterMaxTokens cfg >? 0
    then Some (JInteger (g_OpenRouterMaxTokens cfg)) else None.
Proof. request_cases cfg; reflexivity. Qed.

Lemma request_member_seed (cfg : Config) (prompt : string) :
  obj_find "seed" (request_members cfg prompt)
  = if str_empty (g_OpenRouterSeed cfg) then None
    else match stoi (g_OpenRouterSeed cfg) with
         | Return v => Some (JInteger v)
         | Throw _ => None
         end.
Proof. request_cases cfg; reflexivity. Qed.

Lemma str_empty_false (s : string) : s <> "" -> str_empty s = false.
Proof. destruct s; [congruence | reflexivity]. Qed.

(** ** C strings *)

Lemma c_str_no_nul (s : string) : no_nul s = true -> c_str s = s.
Proof.
  induction s as [|c r IH]; [reflexivity|]. simpl.
  destruct (Ascii.eqb c zero); [discriminate|].
  intros H. rewrite (IH H). reflexivity.
Qed.

Lemma c_str_idempotent (s : string) : c_str (c_str s) = c_str s.
Proof.
  induction s as [|c r IH]; [reflexivity|]. simpl.
  destruct (Ascii.eqb c zero) eqn:E; [reflexivity|].
  simpl. rewrite E, IH. reflexivity.
Qed.

Lemma c_str_digits (d : Decimal.uint) (rest : string) :
  c_str (NilEmpty.string_of_uint d ++ rest)
  = NilEmpty.string_of_uint d ++ c_str rest.
Proof.
  induction d; simpl; [reflexivity | ..]; rewrite IHd; reflexivity.
Qed.

Lemma c_str_to_string (n : Z) (rest : string) :
  c_str (to_string n ++ rest) = to_string n ++ c_str rest.
Proof.
  assert (H : forall d, c_str (NilZero.string_of_uint d ++ rest)
                        = NilZero.string_of_uint d ++ c_str rest).
  { intros d. destruct d; [reflexivity | ..]; apply c_str_digits. }
  unfold to_string, NilZero.string_of_int.
  destruct (Z.to_int n) as [d|d]; [apply H|].
  simpl. rewrite H. reflexivity.
Qed.

(** ** The HTTP error classifier *)

(** C4, as the code has it: the classifier throws exactly when the status code is at
    least 400.  The text of the thrown runtime_error names the kind and
    ends with the response body up to its first NUL byte: invalid
    parameters for 400, unauthorized (invalid API key) for 401, account
    issue for 402, rate limit for 429, and for any other code from 400 up
    the generic "HTTP Error" with the code in decimal.  A body that holds
    no NUL byte is carried whole. *)
Theorem C4_HandleOpenRouterErrors_classifies (code : Z) (body : string) :
  (throws (HandleOpenRouterErrors code body) <-> 400 <= code)
  /\ (code < 400 -> HandleOpenRouterErrors code body = Return tt)
  /\ (code = 400 ->
      HandleOpenRouterErrors code body
      = Throw (Exn runtime_error
                 ("Bad Request: Invalid parameters - " ++ c_str body)))
  /\ (code = 401 ->
      HandleOpenRouterErrors code body
      = Throw (Exn runtime_error
                 ("Unauthorized: Invalid API key - " ++ c_str body)))
  /\ (code = 402 ->
      HandleOpenRouterErrors code body
      = Throw (Exn runtime_error
                 ("Payment Required: Account issue - " ++ c_str body)))
  /\ (code = 429 ->
      HandleOpenRouterErrors code body
      = Throw (Exn runtime_error
                 ("Rate Limited: Too many requests - " ++ c_str body)))
  /\ (400 <= code -> code <> 400 -> code <> 401 -> code <> 402 ->
      code <> 429 ->
      HandleOpenRouterErrors code body
      = Throw (Exn runtime_error
                 ("HTTP Error " ++ to_string code ++ " - " ++ c_str body)))
  /\ (no_nul body = true -> c_str body = body).
Proof.
  assert (Hgen : code <> 400 -> code <> 401 -> code <> 402 -> code <> 429 ->
                 HandleOpenRouterErrors code body
                 = if code >=? 400
                   then Throw (Exn runtime_error
                                 ("HTTP Error " ++ to_string code ++ " - "
                                    ++ c_str body))
                   else Return tt).
  { intros H0 H1 H2 H9.
    change ("HTTP Error " ++ to_string code ++ " - " ++ c_str body)
      with ("HTTP Error " ++ to_string code ++ c_str (" - " ++ body)).
    rewrite <- c_str_to_string.
    unfold HandleOpenRouterErrors.
    destruct code as [|p|p]; try reflexivity.
    do 9 (destruct p as [p|p|]; try reflexivity); congruence. }
  assert (Hlow : code < 400 -> HandleOpenRouterErrors code body = Return tt).
  { intros Hlt. rewrite Hgen by lia.
    destruct (code >=? 400) eqn:E; [lia | reflexivity]. }
  repeat split.
  - intros [e He].
    destruct (Z_lt_le_dec code 400) as [Hlt|Hge]; [|lia].
    rewrite (Hlow Hlt) in He. discriminate.
  - intros Hge.
    destruct (Z.eq_dec code 400) as [->|H0]; [eexists; reflexivity|].
    destruct (Z.eq_dec code 401) as [->|H1]; [eexists; reflexivity|].
    destruct (Z.eq_dec code 402) as [->|H2]; [eexists; reflexivity|].
    destruct (Z.eq_dec code 429) as [->|H9]; [eexists; reflexivity|].
    rewrite Hgen by assumption.
    destruct (code >=? 400) eqn:E; [eexists; reflexivity | lia].
  - exact Hlow.
  - intros ->. reflexivity.
  - intros ->. reflexivity.
  - intros ->. reflexivity.
  - intros ->. reflexivity.
  - intros Hge H0 H1 H2 H9. rewrite Hgen by assumption.
    destruct (code >=? 400) eqn:E; [reflexivity | lia].
  - apply c_str_no_nul.
Qed.

(** The classifier at 401 with an opaque body, at 503, below 400, and at
    429 with a body cut at its NUL byte. *)
Lemma C4_HandleOpenRouterErrors_classifies_witness :
  HandleOpenRouterErrors 401 "{not json"
  = Throw (Exn runtime_error "Unauthorized: Invalid API key - {not json")
  /\ HandleOpenRouterErrors 503 "down"
     = Throw (Exn runtime_error "HTTP Error 503 - down")
  /\ HandleOpenRouterErrors 399 "x" = Return tt
  /\ HandleOpenRouterErrors 429 body_a_nul_b
     = Throw (Exn runtime_error "Rate Limited: Too many requests - a").
Proof.
  split; [|split; [|split]].
  - apply (C4_HandleOpenRouterErrors_classifies 401 "{not json"). reflexivity.
  - apply (C4_HandleOpenRouterErrors_classifies 503 "down"); lia.
  - apply (C4_HandleOpenRouterErrors_classifies 399 "x"). lia.
  - apply (C4_HandleOpenRouterErrors_classifies 429 body_a_nul_b).
    reflexivity.
Defined.

(** C4 as stated fails on a body that holds a NUL byte: for 401 and the
    three bytes [a], NUL, [b] the error's text ends with [a], not with the
    body. *)
Lemma C4_counterexample :
  HandleOpenRouterErrors 401 body_a_nul_b
  = Throw (Exn runtime_error "Unauthorized: Invalid API key - a")
  /\ HandleOpenRouterErrors 401 body_a_nul_b
     <> Throw (Exn runtime_error
                 ("Unauthorized: Invalid API key - " ++ body_a_nul_b)).
Proof. split; [reflexivity | discriminate]. Qed.

(** ** The request builder *)

(** C3: the builder returns a request whose "messages" member is an array
    of two messages with roles "system", "user" in that order when the
    configured system prompt is not empty, and of one message with role
    "user" when it is empty; every message with role "user" (there is one)
    has the caller's prompt, unchanged, as its content. *)
Theorem C3_request_messages (cfg : Config) (prompt : string) :
  exists request messages,
    outcome (ConstructOpenRouterRequest cfg prompt) = Return request
    /\ member request "messages" = Some (JArray messages)
    /\ (if str_empty (g_OpenRouterSystemPrompt cfg)
        then length messages = 1%nat
             /\ map role_of messages = [Some (JString "user")]
        else length messages = 2%nat
             /\ map role_of messages
                = [Some (JString "system"); Some (JString "user")])
    /\ (forall m, In m messages -> role_of m = Some (JString "user") ->
                  member m "content" = Some (JString prompt)).
Proof.
  exists (JObject (request_members cfg prompt)),
         (request_messages cfg prompt).
  rewrite ConstructOpenRouterRequest_eq. split; [reflexivity|].
  split; [apply request_member_messages|].
  unfold request_messages.
  destruct (str_empty (g_OpenRouterSystemPrompt cfg)); simpl.
  - split; [split; reflexivity|].
    intros m [<-|[]] _. reflexivity.
  - split; [split; reflexivity|].
    intros m [<-|[<-|[]]] H; [discriminate H | reflexivity].
Qed.

(** C8: in the built request each of the keys "temperature", "top_p",
    "top_k", "max_tokens" is present exactly when the configured value
    differs from its default (temperature from 0.7f, top-p from 0.9f;
    top-k and max-tokens when positive); so with temperature 0.7f, top-p
    0.9f, top-k and max-tokens not positive, none of the four is present. *)
Theorem C8_sampling_keys (cfg : Config) (prompt : string) :
  exists request,
    outcome (ConstructOpenRouterRequest cfg prompt) = Return request
    /\ contains request "temperature"
       = float_ne (g_OpenRouterTemperature cfg) float_0_7
    /\ contains request "top_p" = float_ne (g_OpenRouterTopP cfg) float_0_9
    /\ contains request "top_k" = (g_OpenRouterTopK cfg >? 0)
    /\ contains request "max_tokens" = (g_OpenRouterMaxTokens cfg >? 0)
    /\ (SFeqb (g_OpenRouterTemperature cfg) float_0_7 = true ->
        SFeqb (g_OpenRouterTopP cfg) float_0_9 = true ->
        g_OpenRouterTopK cfg <= 0 ->
        g_OpenRouterMaxTokens cfg <= 0 ->
        contains request "temperature" = false
        /\ contains request "top_p" = false
        /\ contains request "top_k" = false
        /\ contains request "max_tokens" = false).
Proof.
  exists (JObject (request_members cfg prompt)).
  rewrite ConstructOpenRouterRequest_eq.
  assert (Ht : contains (JObject (request_members cfg prompt)) "temperature"
               = float_ne (g_OpenRouterTemperature cfg) float_0_7).
  { simpl. rewrite request_member_temperature.
    destruct (float_ne (g_OpenRouterTemperature cfg) float_0_7);
      reflexivity. }
  assert (Hp : contains (JObject (request_members cfg prompt)) "top_p"
               = float_ne (g_OpenRouterTopP cfg) float_0_9).
  { simpl. rewrite request_member_top_p.
    destruct (float_ne (g_OpenRouterTopP cfg) float_0_9); reflexivity. }
  assert (Hk : contains (JObject (request_members cfg prompt)) "top_k"
               = (g_OpenRouterTopK cfg >? 0)).
  { simpl. rewrite request_member_top_k.
    destruct (g_OpenRouterTopK cfg >? 0); reflexivity. }
  assert (Hm : contains (JObject (request_members cfg prompt)) "max_tokens"
               = (g_OpenRouterMaxTokens cfg >? 0)).
  { simpl. rewrite request_member_max_tokens.
    destruct (g_OpenRouterMaxTokens cfg >? 0); reflexivity. }
  split; [reflexivity|].
  do 4 (split; [assumption|]).
  intros Et Ep Ek Em.
  rewrite Ht, Hp, Hk, Hm. unfold float_ne. rewrite Et, Ep.
  rewrite !Z.gtb_ltb.
  replace (0 <? g_OpenRouterTopK cfg) with false
    by (symmetry; apply Z.ltb_ge; assumption).
  replace (0 <? g_OpenRouterMaxTokens cfg) with false
    by (symmetry; apply Z.ltb_ge; assumption).
  repeat split.
Qed.

(** The builder at the default configuration. *)
Lemma C8_sampling_keys_witness :
  exists request,
    outcome (ConstructOpenRouterRequest default_config "hi") = Return request
    /\ contains request "temperature" = false
    /\ contains request "top_p" = false
    /\ contains request "top_k" = false
    /\ contains request "max_tokens" = false.
Proof.
  destruct (C8_sampling_keys default_config "hi")
    as (request & Hreq & _ & _ & _ & _ & H).
  exists request. split; [exact Hreq|].
  apply H; [reflexivity | reflexivity | simpl; lia | simpl; lia].
Defined.

(** C9: with a non-empty configured seed, the builder returns a request
    (it does not throw); when [std::stoi] throws on the seed the request
    has no "seed" key, and when it returns [v] the "seed" key holds the
    integer [v]. *)
Theorem C9_seed (cfg : Config) (prompt : string) :
  g_OpenRouterSeed cfg <> "" ->
  exists request,
    outcome (ConstructOpenRouterRequest cfg prompt) = Return request
    /\ (throws (stoi (g_OpenRouterSeed cfg)) ->
        contains request "seed" = false)
    /\ (forall v, stoi (g_OpenRouterSeed cfg) = Return v ->
                  member request "seed" = Some (JInteger v)).
Proof.
  intros Hseed. exists (JObject (request_members cfg prompt)).
  rewrite ConstructOpenRouterRequest_eq. split; [reflexivity|].
  simpl. rewrite request_member_seed, (str_empty_false _ Hseed).
  split.
  - intros [e ->]. reflexivity.
  - intros v ->. reflexivity.
Qed.

(** A seed that is not a number, and one that is. *)
Lemma C9_seed_witness :
  (exists request,
      outcome (ConstructOpenRouterRequest (with_seed default_config "abc") "hi")
      = Return request
      /\ contains request "seed" = false)
  /\ (exists request,
         outcome (ConstructOpenRouterRequest
                    (with_seed default_config "42") "hi")
         = Return request
         /\ member request "seed" = Some (JInteger 42)).
Proof.
  split.
  - destruct (C9_seed (with_seed default_config "abc") "hi")
      as (request & Hreq & Hbad & _); [discriminate|].
    exists request. split; [exact Hreq|].
    apply Hbad. eexists. reflexivity.
  - destruct (C9_seed (with_seed default_config "42") "hi")
      as (request & Hreq & _ & Hok); [discriminate|].
    exists request. split; [exact Hreq|].
    apply Hok. reflexivity.
Defined.

(** ** The response parser *)

Lemma member_Some_object (j : json) (key : string) (v : json) :
  member j key = Some v -> exists m, j = JObject m /\ obj_find key m = Some v.
Proof. destruct j; simpl; try discriminate. eauto. Qed.

Lemma contains_true (j : json) (key : string) (v : json) :
  member j key = Some v -> contains j key = true.
Proof. intros H. rewrite contains_member, H. reflexivity. Qed.

Lemma contains_false (j : json) (key : string) :
  member j key = None -> contains j key = false.
Proof. intros H. rewrite contains_member, H. reflexivity. Qed.

Lemma at_key_member (j : json) (key : string) (v : json) :
  member j key = Some v -> at_key j key = Return v.
Proof.
  intros H. destruct (member_Some_object _ _ _ H) as (m & -> & Hm).
  simpl. rewrite Hm. reflexivity.
Qed.

(** The accessors throw nothing but type errors. *)
Lemma at_key_throws (j : json) (key : string) (e : exception) :
  at_key j key = Throw e -> class_of e = json_type_error.
Proof. destruct j; simpl; intros [= <-]; reflexivity. Qed.

Lemma at_index_throws (j : json) (idx : nat) (e : exception) :
  at_index j idx = Throw e -> class_of e = json_type_error.
Proof. destruct j; simpl; intros [= <-]; reflexivity. Qed.

Lemma get_string_throws (j : json) (e : exception) :
  get_string j = Throw e -> class_of e = json_type_error.
Proof. destruct j; simpl; intros [= <-]; reflexivity. Qed.

(** One step through [extract_reply]: a test or a call that may throw. *)
Ltac reply_step :=
  match goal with
  | |- context [if ?b then _ else _] => destruct b
  | |- context [at_key ?j ?k] =>
      let E := fresh "E" in
      destruct (at_key j k) eqn:E; cbn [bind]; cbv beta iota;
      [|left; exact (at_key_throws _ _ _ E)]
  | |- context [at_index ?j ?k] =>
      let E := fresh "E" in
      destruct (at_index j k) eqn:E; cbn [bind]; cbv beta iota;
      [|left; exact (at_index_throws _ _ _ E)]
  | |- context [get_string ?j] =>
      let E := fresh "E" in
      destruct (get_string j) eqn:E; cbn [bind]; cbv beta iota;
      [|left; exact (get_string_throws _ _ E)]
  end.

(** What [extract_reply] throws, when it throws: a type error of the
    library, the invalid-format error, or the application error. *)
Lemma extract_reply_throws (response : json) :
  match extract_reply response with
  | Return _ => True
  | Throw e =>
      class_of e = json_type_error
      \/ e = Exn runtime_error
               "Invalid response format: missing choices or content"
      \/ exists msg, e = Exn runtime_error ("OpenRouter API Error: " ++ msg)
  end.
Proof.
  unfold extract_reply.
  repeat reply_step;
    first [exact I | right; left; reflexivity
          | right; right; eexists; reflexivity].
Qed.

(** The parser once [parse] has returned a document: the [catch] clause
    plays no part. *)
Lemma ParseOpenRouterResponse_parsed
      (parse : string -> result json) (body : string) (response : json) :
  parse body = Return response ->
  ParseOpenRouterResponse parse body = extract_reply response.
Proof.
  intros Hp. unfold ParseOpenRouterResponse. rewrite Hp.
  change (try_catch (extract_reply response)
            (exn_class_eqb json_parse_error)
            (fun e => Throw (std_runtime_error
                               ("Failed to parse JSON response: "
                                  ++ c_str (what e))))
          = extract_reply response).
  pose proof (extract_reply_throws response) as H.
  destruct (extract_reply response) as [s|e]; [reflexivity|].
  unfold try_catch.
  destruct H as [H|[->|[msg ->]]]; [rewrite H|..]; reflexivity.
Qed.

(** The parser when [parse] throws: a parse_error is replaced by the
    failed-to-parse error, whose text ends with the diagnostic read as a C
    string; any other exception leaves the parser as thrown. *)
Lemma ParseOpenRouterResponse_parse_throws
      (parse : string -> result json) (body : string) (e : exception) :
  parse body = Throw e ->
  ParseOpenRouterResponse parse body
  = if exn_class_eqb json_parse_error (class_of e)
    then Throw (Exn runtime_error
                  ("Failed to parse JSON response: " ++ c_str (what e)))
    else Throw e.
Proof.
  intros Hp. unfold ParseOpenRouterResponse. rewrite Hp.
  cbn [bind try_catch].
  destruct (exn_class_eqb json_parse_error (class_of e)); [|reflexivity].
  unfold std_runtime_error.
  change (c_str ("Failed to parse JSON response: " ++ c_str (what e)))
    with ("Failed to parse JSON response: " ++ c_str (c_str (what e))).
  rewrite c_str_idempotent. reflexivity.
Qed.

Lemma exn_class_eqb_neq (c : exn_class) :
  c <> json_parse_error -> exn_class_eqb json_parse_error c = false.
Proof. destruct c; intros H; try reflexivity. elim H. reflexivity. Qed.

(** C5, as the code has it: when the library's [parse] returns a document with no
    top-level "error" key, whose "choices" member is a non-empty array, whose
    first choice has a "message" member and that message has a "content"
    member, then the parser returns the content when it is a JSON string,
    and throws the library's type_error 302 when it is anything else.  On
    the body [{"choices":[{"message":{"content":"hello"}}]}], read by the
    library's parser, it returns "hello". *)
Theorem C5_parse_returns_content :
  (forall (parse : string -> result json) (body : string)
          (response choice message : json) (others : list json) (s : string),
      parse body = Return response ->
      contains response "error" = false ->
      member response "choices" = Some (JArray (choice :: others)) ->
      member choice "message" = Some message ->
      member message "content" = Some (JString s) ->
      ParseOpenRouterResponse parse body = Return s)
  /\ (forall (parse : string -> result json) (body : string)
             (response choice message content : json) (others : list json),
         parse body = Return response ->
         contains response "error" = false ->
         member response "choices" = Some (JArray (choice :: others)) ->
         member choice "message" = Some message ->
         member message "content" = Some content ->
         (forall s, content <> JString s) ->
         ParseOpenRouterResponse parse body
         = Throw (type_error "302"
                    ("type must be string, but is " ++ type_name content)))
  /\ ParseOpenRouterResponse Json.parse body_hello = Return "hello".
Proof.
  split; [|split; [|reflexivity]].
  - intros parse body response choice message others s Hp He Hc Hm Hs.
    rewrite (ParseOpenRouterResponse_parsed _ _ _ Hp).
    unfold extract_reply. rewrite He.
    rewrite (contains_true _ _ _ Hc), (at_key_member _ _ _ Hc). simpl.
    rewrite (contains_true _ _ _ Hm), (at_key_member _ _ _ Hm). simpl.
    rewrite (contains_true _ _ _ Hs), (at_key_member _ _ _ Hs). reflexivity.
  - intros parse body response choice message content others
           Hp He Hc Hm Hs Hn.
    rewrite (ParseOpenRouterResponse_parsed _ _ _ Hp).
    unfold extract_reply. rewrite He.
    rewrite (contains_true _ _ _ Hc), (at_key_member _ _ _ Hc). simpl.
    rewrite (contains_true _ _ _ Hm), (at_key_member _ _ _ Hm). simpl.
    rewrite (contains_true _ _ _ Hs), (at_key_member _ _ _ Hs). simpl.
    destruct content; try reflexivity. elim (Hn s). reflexivity.
Qed.

(** The general statements at the library's parser: the sample body, and a
    body whose content is null. *)
Lemma C5_parse_returns_content_witness :
  Json.parse body_hello
  = Return (JObject
              [("choices",
                JArray [JObject
                          [("message",
                            JObject [("content", JString "hello")])]])])
  /\ ParseOpenRouterResponse Json.parse body_hello = Return "hello"
  /\ ParseOpenRouterResponse Json.parse body_empty_content = Return ""
  /\ ParseOpenRouterResponse Json.parse body_null_content
     = Throw (type_error "302" "type must be string, but is null").
Proof.
  split; [reflexivity|]. split; [|split].
  - apply (proj1 C5_parse_returns_content Json.parse body_hello
             (JObject
                [("choices",
                  JArray [JObject
                            [("message",
                              JObject [("content", JString "hello")])]])])
             (JObject [("message", JObject [("content", JString "hello")])])
             (JObject [("content", JString "hello")]) [] "hello");
      reflexivity.
  - apply (proj1 C5_parse_returns_content Json.parse body_empty_content
             (JObject
                [("choices",
                  JArray [JObject
                            [("message",
                              JObject [("content", JString "")])]])])
             (JObject [("message", JObject [("content", JString "")])])
             (JObject [("content", JString "")]) [] "");
      reflexivity.
  - apply (proj1 (proj2 C5_parse_returns_content) Json.parse
             body_null_content
             (JObject
                [("choices",
                  JArray [JObject
                            [("message",
                              JObject [("content", JNull)])]])])
             (JObject [("message", JObject [("content", JNull)])])
             (JObject [("content", JNull)]) JNull []);
      try reflexivity.
    intros s. discriminate.
Defined.

(** C5 as stated fails on [{"choices":[{"message":{"content":null}}]}]: the
    body has no "error" key, a non-empty "choices" array and a first choice
    whose message carries a "content" field, yet the parser returns nothing:
    it throws the library's type_error.  It fails too on a body with these
    members next to a number beyond the range of a double, which the
    library's parse refuses with out_of_range 406. *)
Lemma C5_counterexample :
  Json.parse body_null_content
  = Return (JObject
              [("choices",
                JArray [JObject
                          [("message", JObject [("content", JNull)])]])])
  /\ ParseOpenRouterResponse Json.parse body_null_content
     = Throw (Exn json_type_error
                "[json.exception.type_error.302] type must be string, but is null")
  /\ ~ (exists s,
           ParseOpenRouterResponse Json.parse body_null_content = Return s)
  /\ ParseOpenRouterResponse Json.parse body_hello_and_overflow
     = Throw number_overflow
  /\ ~ (exists s,
           ParseOpenRouterResponse Json.parse body_hello_and_overflow
           = Return s).
Proof.
  assert (Hnull : ParseOpenRouterResponse Json.parse body_null_content
                  = Throw (type_error "302" "type must be string, but is null"))
    by reflexivity.
  assert (Hover : ParseOpenRouterResponse Json.parse body_hello_and_overflow
                  = Throw number_overflow) by reflexivity.
  split; [reflexivity|]. split; [exact Hnull|]. split.
  - intros [s H]. rewrite Hnull in H. discriminate H.
  - split; [exact Hover|]. intros [s H]. rewrite Hover in H. discriminate H.
Qed.

(** With a top-level "error" key the parser always throws. *)
Lemma ParseOpenRouterResponse_error_throws
      (parse : string -> result json) (body : string) (response : json) :
  parse body = Return response ->
  contains response "error" = true ->
  throws (ParseOpenRouterResponse parse body).
Proof.
  intros Hp He. rewrite (ParseOpenRouterResponse_parsed _ _ _ Hp).
  unfold extract_reply. rewrite He.
  destruct (at_key response "error") as [error|e]; [|eexists; reflexivity].
  simpl. destruct (contains error "message"); [|eexists; reflexivity].
  destruct (at_key error "message") as [message|e]; [|eexists; reflexivity].
  simpl. destruct (get_string message); eexists; reflexivity.
Qed.

(** C6, as the code has it.  When the library's [parse] returns
    a document with a top-level "error" key, the parser throws and never
    returns reply text, whatever else the body holds.  It throws the
    runtime_error whose text is "OpenRouter API Error: " followed by the
    error's "message" member up to its first NUL byte (the whole member
    when it holds none) when that member is present and is a string, and
    followed by "API Error" when the error has no "message" member (or is
    not an object); when the member is present but is not a string, what
    is thrown is the library's type_error 302.  When [parse] throws
    something other than a parse_error (out_of_range 406 on a number beyond
    the range of a double), that exception leaves the parser whatever
    members the body names. *)
Theorem C6_error_member_raises
        (parse : string -> result json) (body : string) :
  (forall response error : json,
      parse body = Return response ->
      member response "error" = Some error ->
      throws (ParseOpenRouterResponse parse body)
      /\ (member error "message" = None ->
          ParseOpenRouterResponse parse body
          = Throw (Exn runtime_error "OpenRouter API Error: API Error"))
      /\ (forall msg, member error "message" = Some (JString msg) ->
          ParseOpenRouterResponse parse body
          = Throw (Exn runtime_error ("OpenRouter API Error: " ++ c_str msg)))
      /\ (forall msg, member error "message" = Some (JString msg) ->
          no_nul msg = true ->
          ParseOpenRouterResponse parse body
          = Throw (Exn runtime_error ("OpenRouter API Error: " ++ msg)))
      /\ (forall v, member error "message" = Some v ->
          (forall msg, v <> JString msg) ->
          ParseOpenRouterResponse parse body
          = Throw (type_error "302"
                     ("type must be string, but is " ++ type_name v))))
  /\ (forall e : exception,
         parse body = Throw e ->
         class_of e <> json_parse_error ->
         ParseOpenRouterResponse parse body = Throw e).
Proof.
  split.
  - intros response error Hp He.
    split.
    { apply (ParseOpenRouterResponse_error_throws _ _ _ Hp).
      apply (contains_true _ _ _ He). }
    rewrite (ParseOpenRouterResponse_parsed _ _ _ Hp). unfold extract_reply.
    rewrite (contains_true _ _ _ He), (at_key_member _ _ _ He). simpl.
    split; [|split; [|split]].
    + intros Hm. rewrite (contains_false _ _ Hm). reflexivity.
    + intros msg Hm.
      rewrite (contains_true _ _ _ Hm), (at_key_member _ _ _ Hm).
      reflexivity.
    + intros msg Hm Hn.
      rewrite (contains_true _ _ _ Hm), (at_key_member _ _ _ Hm).
      rewrite <- (c_str_no_nul msg Hn) at 2. reflexivity.
    + intros v Hm Hv.
      rewrite (contains_true _ _ _ Hm), (at_key_member _ _ _ Hm). simpl.
      destruct v; try reflexivity. elim (Hv s). reflexivity.
  - intros e Hp Hc.
    rewrite (ParseOpenRouterResponse_parse_throws _ _ _ Hp).
    rewrite (exn_class_eqb_neq _ Hc). reflexivity.
Qed.

(** The cases at the library's parser: a string message, an error without
    a message next to a usable "choices" array, a numeric message, a message
    holding a NUL byte, and an error next to a number that overflows. *)
Lemma C6_error_member_raises_witness :
  ParseOpenRouterResponse Json.parse body_bad_key
  = Throw (Exn runtime_error "OpenRouter API Error: bad key")
  /\ ParseOpenRouterResponse Json.parse body_error_and_choices
     = Throw (Exn runtime_error "OpenRouter API Error: API Error")
  /\ ParseOpenRouterResponse Json.parse body_error_message_42
     = Throw (type_error "302" "type must be string, but is number")
  /\ ParseOpenRouterResponse Json.parse body_error_message_nul
     = Throw (Exn runtime_error "OpenRouter API Error: a")
  /\ ParseOpenRouterResponse Json.parse body_error_and_overflow
     = Throw number_overflow.
Proof.
  split; [|split; [|split; [|split]]].
  - destruct (proj1 (C6_error_member_raises Json.parse body_bad_key)
                (JObject [("error", JObject [("message", JString "bad key")])])
                (JObject [("message", JString "bad key")])
                eq_refl eq_refl) as (_ & _ & _ & Hstring & _).
    apply (Hstring "bad key"); reflexivity.
  - destruct (proj1 (C6_error_member_raises Json.parse
                       body_error_and_choices)
                (JObject
                   [("choices",
                     JArray [JObject
                               [("message",
                                 JObject [("content", JString "hi")])]]);
                    ("error", JObject [("code", JUnsigned 402)])])
                (JObject [("code", JUnsigned 402)])
                eq_refl eq_refl) as (_ & Habsent & _ & _ & _).
    apply Habsent. reflexivity.
  - destruct (proj1 (C6_error_member_raises Json.parse
                       body_error_message_42)
                (JObject [("error", JObject [("message", JUnsigned 42)])])
                (JObject [("message", JUnsigned 42)])
                eq_refl eq_refl) as (_ & _ & _ & _ & Hother).
    apply (Hother (JUnsigned 42)); [reflexivity|].
    intros msg. discriminate.
  - destruct (proj1 (C6_error_member_raises Json.parse
                       body_error_message_nul)
                (JObject [("error", JObject [("message", JString body_a_nul_b)])])
                (JObject [("message", JString body_a_nul_b)])
                eq_refl eq_refl) as (_ & _ & Hcut & _ & _).
    apply (Hcut body_a_nul_b). reflexivity.
  - apply (proj2 (C6_error_member_raises Json.parse body_error_and_overflow)
             number_overflow); [reflexivity | discriminate].
Defined.

(** C6 as written fails on [{"error":{"message":42}}]: the body is
    well-formed and has an "error" object with a "message" member, yet what
    the parser throws is not an application error carrying that member (nor
    the generic label): it is the library's type_error.  It fails on an
    error message holding an escaped NUL, whose text is cut there, and on an
    error object next to a number beyond the range of a double, where the
    library's out_of_range 406 is thrown. *)
Lemma C6_counterexample :
  Json.parse body_error_message_42
  = Return (JObject [("error", JObject [("message", JUnsigned 42)])])
  /\ ParseOpenRouterResponse Json.parse body_error_message_42
     = Throw (Exn json_type_error
                "[json.exception.type_error.302] type must be string, but is number")
  /\ ~ (exists msg,
           ParseOpenRouterResponse Json.parse body_error_message_42
           = Throw (Exn runtime_error ("OpenRouter API Error: " ++ msg)))
  /\ Json.parse body_error_message_nul
     = Return (JObject
                 [("error", JObject [("message", JString body_a_nul_b)])])
  /\ ParseOpenRouterResponse Json.parse body_error_message_nul
     = Throw (Exn runtime_error "OpenRouter API Error: a")
  /\ ParseOpenRouterResponse Json.parse body_error_message_nul
     <> Throw (Exn runtime_error ("OpenRouter API Error: " ++ body_a_nul_b))
  /\ ParseOpenRouterResponse Json.parse body_error_and_overflow
     = Throw (Exn json_out_of_range
                "[json.exception.out_of_range.406] number overflow parsing")
  /\ ~ (exists msg,
           ParseOpenRouterResponse Json.parse body_error_and_overflow
           = Throw (Exn runtime_error ("OpenRouter API Error: " ++ msg))).
Proof.
  assert (H42 : ParseOpenRouterResponse Json.parse body_error_message_42
                = Throw (type_error "302"
                           "type must be string, but is number"))
    by reflexivity.
  assert (Hnul : ParseOpenRouterResponse Json.parse body_error_message_nul
                 = Throw (Exn runtime_error "OpenRouter API Error: a"))
    by reflexivity.
  assert (Hover : ParseOpenRouterResponse Json.parse body_error_and_overflow
                  = Throw number_overflow) by reflexivity.
  split; [reflexivity|]. split; [exact H42|]. split.
  { intros [msg H]. rewrite H42 in H. discriminate H. }
  split; [reflexivity|]. split; [exact Hnul|]. split.
  { rewrite Hnul. discriminate. }
  split; [exact Hover|].
  intros [msg H]. rewrite Hover in H. discriminate H.
Qed.

(** C7, as the code has it: when the library's [parse] throws a parse_error the
    parser throws the runtime_error "Failed to parse JSON response: "
    followed by the diagnostic; an exception of another class thrown by
    [parse] leaves the parser as it is.  When the body parses, has no
    "error" key and lacks the expected content, it throws the runtime_error
    "Invalid response format: missing choices or content"; the two texts
    differ whatever the diagnostic, and a body that parses never yields the
    first one. *)
Theorem C7_parse_failures_distinct (parse : string -> result json) :
  (forall body e,
      parse body = Throw e -> class_of e = json_parse_error ->
      ParseOpenRouterResponse parse body
      = Throw (Exn runtime_error
                 ("Failed to parse JSON response: " ++ c_str (what e))))
  /\ (forall body e,
         parse body = Throw e -> class_of e <> json_parse_error ->
         ParseOpenRouterResponse parse body = Throw e)
  /\ (forall body response,
         parse body = Return response ->
         contains response "error" = false ->
         lacks_content response ->
         ParseOpenRouterResponse parse body
         = Throw (Exn runtime_error
                    "Invalid response format: missing choices or content"))
  /\ (forall diagnostic,
         "Failed to parse JSON response: " ++ diagnostic
         <> "Invalid response format: missing choices or content")
  /\ (forall body response diagnostic,
         parse body = Return response ->
         ParseOpenRouterResponse parse body
         <> Throw (Exn runtime_error
                     ("Failed to parse JSON response: " ++ diagnostic))).
Proof.
  split; [|split; [|split; [|split]]].
  - intros body e Hp Hc.
    rewrite (ParseOpenRouterResponse_parse_throws _ _ _ Hp), Hc.
    reflexivity.
  - intros body e Hp Hc.
    rewrite (ParseOpenRouterResponse_parse_throws _ _ _ Hp).
    rewrite (exn_class_eqb_neq _ Hc). reflexivity.
  - intros body response Hp He Hl.
    rewrite (ParseOpenRouterResponse_parsed _ _ _ Hp).
    unfold extract_reply. rewrite He.
    destruct Hl as [Hn | [(choices & Hc & Hempty) | (choice & others & Hc & Hm)]].
    + rewrite (contains_false _ _ Hn). reflexivity.
    + rewrite (contains_true _ _ _ Hc), (at_key_member _ _ _ Hc). simpl.
      rewrite Hempty. reflexivity.
    + rewrite (contains_true _ _ _ Hc), (at_key_member _ _ _ Hc). simpl.
      destruct Hm as [Hm | (message & Hm & Hcontent)].
      * rewrite (contains_false _ _ Hm). reflexivity.
      * rewrite (contains_true _ _ _ Hm), (at_key_member _ _ _ Hm). simpl.
        rewrite (contains_false _ _ Hcontent). reflexivity.
  - intros diagnostic. simpl. discriminate.
  - intros body response diagnostic Hp.
    rewrite (ParseOpenRouterResponse_parsed _ _ _ Hp).
    pose proof (extract_reply_throws response) as H.
    destruct (extract_reply response) as [s|e]; [discriminate|].
    destruct H as [H|[->|[msg ->]]].
    + intros [= ->]. discriminate H.
    + simpl. discriminate.
    + simpl. discriminate.
Qed.

(** A truncated body against a complete one without "choices", and a body
    on which the library's parser throws out_of_range. *)
Lemma C7_parse_failures_distinct_witness :
  ParseOpenRouterResponse Json.parse body_malformed
  = Throw (Exn runtime_error
             "Failed to parse JSON response: [json.exception.parse_error.101] parse error")
  /\ ParseOpenRouterResponse Json.parse body_no_choices
     = Throw (Exn runtime_error
                "Invalid response format: missing choices or content")
  /\ ParseOpenRouterResponse Json.parse body_open_array_overflow
     = Throw number_overflow.
Proof.
  split; [|split].
  - apply (proj1 (C7_parse_failures_distinct Json.parse) body_malformed
             syntax_error); reflexivity.
  - apply (proj1 (proj2 (proj2 (C7_parse_failures_distinct Json.parse)))
             body_no_choices (JObject [("id", JString "gen-1")]));
      [reflexivity | reflexivity | left; reflexivity].
  - apply (proj1 (proj2 (C7_parse_failures_distinct Json.parse))
             body_open_array_overflow number_overflow);
      [reflexivity | discriminate].
Defined.

(** C7 as stated fails on text that is not well-formed JSON yet does not
    make the library's parse throw a parse_error.  On [[1e999], an array
    left open, the number is refused first and the parser throws the
    library's out_of_range 406, not a failed-to-parse error.  A complete
    document followed by a NUL byte and further bytes is read up to the
    NUL, and the parser returns the content. *)
Lemma C7_counterexample :
  ParseOpenRouterResponse Json.parse body_open_array_overflow
  = Throw (Exn json_out_of_range
             "[json.exception.out_of_range.406] number overflow parsing")
  /\ (forall diagnostic,
         ParseOpenRouterResponse Json.parse body_open_array_overflow
         <> Throw (Exn runtime_error
                     ("Failed to parse JSON response: " ++ diagnostic)))
  /\ ParseOpenRouterResponse Json.parse body_hello_nul_garbage
     = Return "hello"
  /\ ~ throws (ParseOpenRouterResponse Json.parse body_hello_nul_garbage).
Proof.
  assert (Hover : ParseOpenRouterResponse Json.parse body_open_array_overflow
                  = Throw number_overflow) by reflexivity.
  assert (Hnul : ParseOpenRouterResponse Json.parse body_hello_nul_garbage
                 = Return "hello") by reflexivity.
  split; [exact Hover|]. split.
  { intros diagnostic. rewrite Hover. discriminate. }
  split; [exact Hnul|]. intros [e H]. rewrite Hnul in H. discriminate H.
Qed.

(** ** The serializer's failure *)

Section DumpFacts.

Variable ftc : spec_float -> string.

Lemma dump_array (l : list json) :
  dump ftc (JArray l)
  = parts <- dump_elements ftc l;;
    Return ("[" ++ String.concat "," parts ++ "]").
Proof. reflexivity. Qed.

Lemma dump_object (m : list (string * json)) :
  dump ftc (JObject m)
  = parts <- dump_members ftc m;;
    Return ("{" ++ String.concat "," parts ++ "}").
Proof. reflexivity. Qed.

Lemma dump_string_invalid (s : string) :
  utf8_valid s = false -> throws (dump ftc (JString s)).
Proof.
  unfold utf8_valid. simpl. unfold dump_escaped.
  destruct (utf8_check s utf8_accept 0 zero) as [u|e]; [discriminate|].
  intros _. exists e. reflexivity.
Qed.

(** One element that cannot be dumped spoils the array. *)
Lemma dump_array_throws (l : list json) (x : json) :
  In x l -> throws (dump ftc x) -> throws (dump ftc (JArray l)).
Proof.
  intros Hin Hx. rewrite dump_array.
  assert (H : throws (dump_elements ftc l)).
  { induction l as [|y r IH]; [destruct Hin|]. simpl.
    destruct Hin as [->|Hin].
    - destruct Hx as [e ->]. exists e. reflexivity.
    - destruct (dump ftc y) as [sy|e]; [|exists e; reflexivity].
      destruct (IH Hin) as [e ->]. exists e. reflexivity. }
  destruct H as [e ->]. exists e. reflexivity.
Qed.

(** One member that cannot be dumped spoils the object. *)
Lemma dump_object_throws (m : list (string * json)) (k : string) (x : json) :
  In (k, x) m -> throws (dump ftc x) -> throws (dump ftc (JObject m)).
Proof.
  intros Hin Hx. rewrite dump_object.
  assert (H : throws (dump_members ftc m)).
  { induction m as [|[k0 y] r IH]; [destruct Hin|]. simpl.
    destruct (dump_escaped k0) as [sk|e]; [|exists e; reflexivity]. simpl.
    destruct Hin as [[= -> ->]|Hin].
    - destruct Hx as [e ->]. exists e. reflexivity.
    - destruct (dump ftc y) as [sy|e]; [|exists e; reflexivity].
      destruct (IH Hin) as [e ->]. exists e. reflexivity. }
  destruct H as [e ->]. exists e. reflexivity.
Qed.

(** A prompt that is not UTF-8 makes the built request impossible to dump. *)
Lemma dump_request_throws (cfg : Config) (prompt : string) :
  utf8_valid prompt = false ->
  throws (dump ftc (JObject (request_members cfg prompt))).
Proof.
  intros Hbad.
  apply (dump_object_throws _ "messages"
           (JArray (request_messages cfg prompt))).
  - apply obj_find_In, request_member_messages.
  - apply (dump_array_throws _ (user_message prompt)).
    + unfold request_messages. apply in_or_app. right. left. reflexivity.
    + apply (dump_object_throws _ "content" (JString prompt)).
      * left. reflexivity.
      * apply dump_string_invalid, Hbad.
Qed.

Lemma dumps_string (s : string) :
  utf8_valid s = true -> dumps ftc (JString s).
Proof.
  unfold utf8_valid, dumps. simpl. unfold dump_escaped.
  destruct (utf8_check s utf8_accept 0 zero) as [u|e]; [|discriminate].
  intros _. eexists. reflexivity.
Qed.

Lemma dumps_array (l : list json) :
  Forall (dumps ftc) l -> dumps ftc (JArray l).
Proof.
  intros H. unfold dumps. rewrite dump_array.
  assert (Hl : exists parts, dump_elements ftc l = Return parts).
  { induction H as [|x r [tx Hx] _ [parts IH]]; simpl.
    - eexists. reflexivity.
    - rewrite Hx, IH. eexists. reflexivity. }
  destruct Hl as [parts ->]. eexists. reflexivity.
Qed.

Lemma dumps_object (m : list (string * json)) :
  Forall (fun kv => utf8_valid (fst kv) = true /\ dumps ftc (snd kv)) m ->
  dumps ftc (JObject m).
Proof.
  intros H. unfold dumps. rewrite dump_object.
  assert (Hm : exists parts, dump_members ftc m = Return parts).
  { induction H as [|[k x] r [Hk [tx Hx]] _ [parts IH]]; simpl.
    - eexists. reflexivity.
    - simpl in Hk, Hx. unfold utf8_valid in Hk. unfold dump_escaped.
      destruct (utf8_check k utf8_accept 0 zero) as [u|e]; [|discriminate].
      simpl. rewrite Hx, IH. eexists. reflexivity. }
  destruct Hm as [parts ->]. eexists. reflexivity.
Qed.

Lemma Forall_obj_set (P : string * json -> Prop) (key : string) (v : json)
      (m : list (string * json)) :
  P (key, v) -> Forall P m -> Forall P (obj_set key v m).
Proof.
  intros Hv H. induction H as [|[k w] r Hk Hr IH]; simpl.
  - constructor; [exact Hv | constructor].
  - destruct (String.compare key k); repeat constructor; assumption.
Qed.

(** With a model name, a system prompt and a prompt that are UTF-8, the
    built request can be dumped. *)
Lemma dump_request_returns (cfg : Config) (prompt : string) :
  utf8_valid (g_OpenRouterModel cfg) = true ->
  utf8_valid (g_OpenRouterSystemPrompt cfg) = true ->
  utf8_valid prompt = true ->
  dumps ftc (JObject (request_members cfg prompt)).
Proof.
  intros Hmodel Hsystem Hprompt.
  assert (Hscalar : forall j,
             match j with
             | JArray _ | JObject _ | JString _ => False
             | _ => True
             end -> dumps ftc j).
  { intros j Hj. destruct j; try destruct Hj; eexists; reflexivity. }
  assert (Hmessage : forall role text,
             utf8_valid role = true -> utf8_valid text = true ->
             dumps ftc (JObject [("content", JString text);
                             ("role", JString role)])).
  { intros role text Hr Ht. apply dumps_object.
    repeat constructor; simpl; auto using dumps_string. }
  assert (Hmessages : dumps ftc (JArray (request_messages cfg prompt))).
  { apply dumps_array. unfold request_messages, system_message, user_message.
    destruct (str_empty (g_OpenRouterSystemPrompt cfg)); simpl;
      repeat constructor; apply Hmessage; auto. }
  apply dumps_object. unfold request_members.
  apply Forall_obj_set; [split; [reflexivity | apply Hscalar; exact I]|].
  repeat match goal with
         | |- Forall _ (if ?b then _ else _) => destruct b
         | |- Forall _ (match ?r with Return _ => _ | Throw _ => _ end) =>
             destruct r
         | |- Forall _ (obj_set _ _ _) =>
             apply Forall_obj_set;
             [split; [reflexivity | apply Hscalar; exact I]|]
         end;
    repeat constructor; simpl; auto using dumps_string.
Qed.

End DumpFacts.

(** ** The query function *)

#[local] Arguments dump : simpl never.
#[local] Arguments String.append : simpl never.

(** The whole function in closed form: every path with the events it
    emits and its outcome. *)
Lemma QueryOllamaAPI_eq (env : Env) (cfg : Config) (prompt : string) :
  QueryOllamaAPI env cfg prompt
  = if str_empty (g_OpenRouterApiKey cfg) then
      (debug_events cfg "OpenRouter API key not configured.",
       Return "AI service not properly configured.")
    else if negb (curl_easy_init env) then
      (ev_curl_easy_init false
         :: debug_events cfg "Failed to initialize cURL.",
       Return "Hmm... I'm lost in thought.")
    else
      match dump (float_to_chars env) (JObject (request_members cfg prompt))
      with
      | Throw e => ((ev_curl_easy_init true :: request_log cfg)%list, Throw e)
      | Return requestDataStr =>
          let request := build_request cfg requestDataStr in
          let t := curl_easy_perform env request in
          if negb (res t =? CURLE_OK) then
            (sent_events cfg request
               (debug_events cfg
                  ("Failed to reach OpenRouter AI. cURL error: "
                     ++ curl_easy_strerror env (res t))),
             Return "Failed to reach OpenRouter AI.")
          else
            match HandleOpenRouterErrors (response_code t) (response_buffer t)
            with
            | Throw e =>
                (sent_events cfg request
                   (debug_events cfg
                      ("OpenRouter API Error: " ++ c_str (what e))),
                 Return "AI service error occurred.")
            | Return _ =>
                match ParseOpenRouterResponse (json_parse env)
                        (response_buffer t) with
                | Throw e =>
                    (sent_events cfg request
                       (debug_events cfg
                          ("Response parsing error: " ++ c_str (what e))),
                     Return "Error processing response.")
                | Return botReply =>
                    if str_empty botReply then
                      (sent_events cfg request
                         (debug_events cfg "No valid response extracted."),
                       Return "I'm having trouble understanding.")
                    else
                      (sent_events cfg request
                         (debug_events cfg
                            ("Parsed bot response: " ++ botReply)),
                       Return botReply)
                end
            end
      end.
Proof.
  unfold QueryOllamaAPI, do_curl_easy_init, debug_log, debug_events,
    sent_events.
  destruct (str_empty (g_OpenRouterApiKey cfg));
    [destruct (g_DebugEnabled cfg); reflexivity|].
  destruct (curl_easy_init env);
    [|destruct (g_DebugEnabled cfg); reflexivity].
  rewrite ConstructOpenRouterRequest_eq.
  unfold do_curl_easy_perform.
  destruct (dump (float_to_chars env) (JObject (request_members cfg prompt)))
    as [requestDataStr|e] eqn:Hdump;
    cbn [try_or_return mbind emit ret lift negb std_exception];
    rewrite Hdump; [|rewrite !app_nil_r; reflexivity].
  cbn [try_or_return mbind emit ret lift negb std_exception].
  destruct (res (curl_easy_perform env (build_request cfg requestDataStr))
            =? CURLE_OK);
    cbn [try_or_return mbind emit ret lift negb std_exception];
    [|destruct (g_DebugEnabled cfg); reflexivity].
  destruct (HandleOpenRouterErrors _ _);
    cbn [try_or_return mbind emit ret lift negb std_exception];
    [|destruct (g_DebugEnabled cfg); reflexivity].
  destruct (ParseOpenRouterResponse _ _) as [botReply|e];
    cbn [try_or_return mbind emit ret lift negb std_exception];
    [|destruct (g_DebugEnabled cfg); reflexivity].
  destruct (str_empty botReply); destruct (g_DebugEnabled cfg); reflexivity.
Qed.

Lemma debug_events_log (cfg : Config) (message : string) (e : event) :
  In e (debug_events cfg message) -> is_log e.
Proof.
  unfold debug_events. destruct (g_DebugEnabled cfg); simpl.
  - intros [<-|[]]. exact I.
  - intros [].
Qed.

Lemma request_log_log (cfg : Config) (e : event) :
  In e (request_log cfg) -> is_log e.
Proof.
  unfold request_log.
  destruct (str_empty (g_OpenRouterSeed cfg)); [intros []|].
  destruct (stoi (g_OpenRouterSeed cfg)); [intros []|].
  destruct (g_DebugEnabled cfg); simpl.
  - intros [<-|[]]. exact I.
  - intros [].
Qed.

(** The only handle event of a call that sent its request reports a
    handle; the only transfer is that request. *)
Lemma sent_events_In (cfg : Config) (request : http_request)
      (message : string) (e : event) :
  In e (sent_events cfg request (debug_events cfg message)) ->
  is_log e \/ e = ev_curl_easy_init true \/ e = ev_curl_easy_perform request
  \/ e = ev_curl_slist_free_all \/ e = ev_curl_easy_cleanup.
Proof.
  unfold sent_events. intros [<-|H]; [auto|].
  apply in_app_or in H. destruct H as [H|H].
  - left. exact (request_log_log _ _ H).
  - destruct H as [<-|[<-|[<-|H]]]; auto.
    left. exact (debug_events_log _ _ _ H).
Qed.

(** The function throws exactly when the dump of the built request does,
    on a call that is configured and got its handle. *)
Lemma QueryOllamaAPI_throws_iff (env : Env) (cfg : Config) (prompt : string)
      (e : exception) :
  outcome (QueryOllamaAPI env cfg prompt) = Throw e
  <-> g_OpenRouterApiKey cfg <> ""
      /\ curl_easy_init env = true
      /\ dump (float_to_chars env) (JObject (request_members cfg prompt))
         = Throw e.
Proof.
  rewrite QueryOllamaAPI_eq.
  destruct (g_OpenRouterApiKey cfg) eqn:Hkey; simpl.
  { split; [discriminate | intros [H _]; congruence]. }
  destruct (curl_easy_init env); simpl.
  2:{ split; [discriminate | intros (_ & H & _); discriminate]. }
  destruct (dump (float_to_chars env) (JObject (request_members cfg prompt)))
    as [requestDataStr|e0]; simpl.
  2:{ split; [intros [= ->]; repeat split; discriminate
             | intros (_ & _ & [= ->]); reflexivity]. }
  split; [|intros (_ & _ & H); discriminate].
  destruct (res _ =? CURLE_OK); simpl; [|discriminate].
  destruct (HandleOpenRouterErrors _ _); simpl; [|discriminate].
  destruct (ParseOpenRouterResponse _ _) as [botReply|e1]; simpl;
    [|discriminate].
  destruct (str_empty botReply); discriminate.
Qed.

(** What the function returns, when it returns: one of the seven fixed
    replies, or the non-empty text the parser extracted. *)
Lemma QueryOllamaAPI_reply (env : Env) (cfg : Config) (prompt reply : string) :
  outcome (QueryOllamaAPI env cfg prompt) = Return reply ->
  In reply fallback_replies
  \/ (reply <> ""
      /\ exists body,
          ParseOpenRouterResponse (json_parse env) body = Return reply).
Proof.
  rewrite QueryOllamaAPI_eq. unfold fallback_replies.
  destruct (str_empty (g_OpenRouterApiKey cfg)); simpl.
  { intros [= <-]. auto. }
  destruct (curl_easy_init env); simpl.
  2:{ intros [= <-]. auto. }
  destruct (dump (float_to_chars env) (JObject (request_members cfg prompt)))
    as [requestDataStr|e0]; simpl; [|discriminate].
  destruct (res _ =? CURLE_OK); simpl.
  2:{ intros [= <-]. auto 10. }
  destruct (HandleOpenRouterErrors _ _); simpl.
  2:{ intros [= <-]. auto 10. }
  destruct (ParseOpenRouterResponse _ _) as [botReply|e1] eqn:Hparse; simpl.
  2:{ intros [= <-]. auto 10. }
  destruct (str_empty botReply) eqn:Hempty.
  { intros [= <-]. auto 10. }
  intros [= <-]. right. split.
  - intros ->. discriminate.
  - eexists. exact Hparse.
Qed.

(** Every failure but one ends in a fixed reply: when the model name, the
    system prompt and the prompt are UTF-8, the function returns, for any
    behaviour of the parser and of the network. *)
Lemma QueryOllamaAPI_returns_on_utf8
      (env : Env) (cfg : Config) (prompt : string) :
  utf8_valid (g_OpenRouterModel cfg) = true ->
  utf8_valid (g_OpenRouterSystemPrompt cfg) = true ->
  utf8_valid prompt = true ->
  exists reply,
    outcome (QueryOllamaAPI env cfg prompt) = Return reply
    /\ (In reply fallback_replies
        \/ (reply <> ""
            /\ exists body,
                ParseOpenRouterResponse (json_parse env) body
                = Return reply)).
Proof.
  intros Hmodel Hsystem Hprompt.
  destruct (outcome (QueryOllamaAPI env cfg prompt)) as [reply|e] eqn:Ho.
  - exists reply. split; [reflexivity|].
    exact (QueryOllamaAPI_reply _ _ _ _ Ho).
  - apply QueryOllamaAPI_throws_iff in Ho. destruct Ho as (_ & _ & Hd).
    destruct (dump_request_returns (float_to_chars env) cfg prompt
                Hmodel Hsystem Hprompt) as [text Ht].
    congruence.
Qed.

(** C1: with an empty API key the function returns "AI service not
    properly configured." for every prompt; it emits nothing but the debug
    line (no handle is asked for, no transfer is made), and neither the
    prompt nor the surroundings are consulted. *)
Theorem C1_not_configured (env : Env) (cfg : Config) (prompt : string) :
  g_OpenRouterApiKey cfg = "" ->
  outcome (QueryOllamaAPI env cfg prompt)
  = Return "AI service not properly configured."
  /\ events (QueryOllamaAPI env cfg prompt)
     = debug_events cfg "OpenRouter API key not configured."
  /\ (forall e, In e (events (QueryOllamaAPI env cfg prompt)) -> is_log e)
  /\ (forall env' prompt',
         QueryOllamaAPI env' cfg prompt' = QueryOllamaAPI env cfg prompt).
Proof.
  intros Hkey.
  assert (H : forall env0 prompt0,
             QueryOllamaAPI env0 cfg prompt0
             = (debug_events cfg "OpenRouter API key not configured.",
                Return "AI service not properly configured.")).
  { intros env0 prompt0. rewrite QueryOllamaAPI_eq, Hkey. reflexivity. }
  rewrite H. simpl. repeat split.
  - apply debug_events_log.
  - intros env' prompt'. apply H.
Qed.

(** The default configuration with its key removed. *)
Lemma C1_not_configured_witness :
  QueryOllamaAPI (sample_env true 0 200 body_hello)
    (with_api_key default_config "") "hello there"
  = ([], Return "AI service not properly configured.").
Proof.
  destruct (C1_not_configured (sample_env true 0 200 body_hello)
              (with_api_key default_config "") "hello there" eq_refl)
    as (Ho & Hev & _).
  rewrite (surjective_pairing (QueryOllamaAPI _ _ _)).
  unfold outcome in Ho. unfold events in Hev. rewrite Ho, Hev.
  reflexivity.
Defined.

(** C10: when [curl_easy_init] fails the function returns "Hmm... I'm lost
    in thought."; the failed attempt and its debug line are the only
    events, so no transfer is made, and the prompt is not consulted.  That
    reply is none of the six that the other failure paths return. *)
Theorem C10_curl_init_failure (env : Env) (cfg : Config) (prompt : string) :
  In (ev_curl_easy_init false) (events (QueryOllamaAPI env cfg prompt)) ->
  outcome (QueryOllamaAPI env cfg prompt)
  = Return "Hmm... I'm lost in thought."
  /\ events (QueryOllamaAPI env cfg prompt)
     = ev_curl_easy_init false
         :: debug_events cfg "Failed to initialize cURL."
  /\ (forall request,
         ~ In (ev_curl_easy_perform request)
              (events (QueryOllamaAPI env cfg prompt)))
  /\ (forall prompt',
         QueryOllamaAPI env cfg prompt' = QueryOllamaAPI env cfg prompt)
  /\ ~ In "Hmm... I'm lost in thought."
          ["AI service not properly configured.";
           "Error preparing request.";
           "Failed to reach OpenRouter AI.";
           "AI service error occurred.";
           "Error processing response.";
           "I'm having trouble understanding."].
Proof.
  intros Hin.
  assert (Hfail : g_OpenRouterApiKey cfg <> ""
                  /\ curl_easy_init env = false).
  { rewrite QueryOllamaAPI_eq in Hin.
    destruct (g_OpenRouterApiKey cfg) eqn:Hkey; simpl in Hin.
    { apply debug_events_log in Hin. destruct Hin. }
    split; [discriminate|].
    destruct (curl_easy_init env); [exfalso|reflexivity]. simpl in Hin.
    destruct (dump (float_to_chars env) (JObject (request_members cfg prompt)))
      as [requestDataStr|e0]; simpl in Hin.
    2:{ destruct Hin as [Hin|Hin]; [discriminate|].
        apply request_log_log in Hin. destruct Hin. }
    assert (Hsent : forall message,
               ~ In (ev_curl_easy_init false)
                    (sent_events cfg (build_request cfg requestDataStr)
                       (debug_events cfg message))).
    { intros message H. apply sent_events_In in H.
      destruct H as [[]|[H|[H|[H|H]]]]; discriminate. }
    destruct (res _ =? CURLE_OK); simpl in Hin;
      [|exact (Hsent _ Hin)].
    destruct (HandleOpenRouterErrors _ _); simpl in Hin;
      [|exact (Hsent _ Hin)].
    destruct (ParseOpenRouterResponse _ _) as [botReply|e1]; simpl in Hin;
      [|exact (Hsent _ Hin)].
    destruct (str_empty botReply); exact (Hsent _ Hin). }
  destruct Hfail as [Hkey Hinit].
  assert (H : forall prompt0,
             QueryOllamaAPI env cfg prompt0
             = (ev_curl_easy_init false
                  :: debug_events cfg "Failed to initialize cURL.",
                Return "Hmm... I'm lost in thought.")).
  { intros prompt0.
    rewrite QueryOllamaAPI_eq, (str_empty_false _ Hkey), Hinit.
    reflexivity. }
  rewrite H. simpl. repeat split.
  - intros request [Hp|Hp]; [discriminate|].
    apply debug_events_log in Hp. destruct Hp.
  - intros prompt'. apply H.
  - intros Hn. repeat (destruct Hn as [Hn|Hn]; [discriminate|]). destruct Hn.
Qed.

(** A configured client that gets no handle. *)
Lemma C10_curl_init_failure_witness :
  QueryOllamaAPI (sample_env false 0 200 body_hello) default_config "hi"
  = ([ev_curl_easy_init false], Return "Hmm... I'm lost in thought.").
Proof.
  destruct (C10_curl_init_failure (sample_env false 0 200 body_hello)
              default_config "hi") as (Ho & Hev & _).
  - left. reflexivity.
  - rewrite (surjective_pairing (QueryOllamaAPI _ _ _)).
    unfold outcome in Ho. unfold events in Hev. rewrite Ho, Hev.
    reflexivity.
Defined.

(** C2 does not hold of the code: [requestData.dump()] is called outside
    every [try] block.  On a configured client that got its handle, a
    prompt that is not valid UTF-8 makes the dump throw, and the exception
    leaves the function: no reply is returned, no transfer is made and the
    handle is not released. *)
Theorem C2_dump_exception_escapes
        (env : Env) (cfg : Config) (prompt : string) :
  g_OpenRouterApiKey cfg <> "" ->
  curl_easy_init env = true ->
  utf8_valid prompt = false ->
  throws (outcome (QueryOllamaAPI env cfg prompt))
  /\ events (QueryOllamaAPI env cfg prompt)
     = (ev_curl_easy_init true :: request_log cfg)%list
  /\ ~ In ev_curl_easy_cleanup (events (QueryOllamaAPI env cfg prompt)).
Proof.
  intros Hkey Hinit Hbad.
  destruct (dump_request_throws (float_to_chars env) cfg prompt Hbad)
    as [e He].
  assert (H : QueryOllamaAPI env cfg prompt
              = ((ev_curl_easy_init true :: request_log cfg)%list, Throw e)).
  { rewrite QueryOllamaAPI_eq, (str_empty_false _ Hkey), Hinit, He.
    reflexivity. }
  rewrite H. simpl. split; [exists e; reflexivity|]. split; [reflexivity|].
  intros [Hc|Hc]; [discriminate|].
  apply request_log_log in Hc. destruct Hc.
Qed.

(** The prompt made of the byte FF, at the default configuration. *)
Lemma C2_dump_exception_escapes_witness :
  throws (outcome (QueryOllamaAPI (sample_env true 0 200 body_hello)
                     default_config prompt_FF))
  /\ QueryOllamaAPI (sample_env true 0 200 body_hello) default_config
       prompt_FF
     = ([ev_curl_easy_init true],
        Throw (Exn json_type_error
                 "[json.exception.type_error.316] invalid UTF-8 byte at index 0: 0xFF")).
Proof.
  split; [|reflexivity].
  apply (C2_dump_exception_escapes (sample_env true 0 200 body_hello)
           default_config prompt_FF); [discriminate | reflexivity | reflexivity].
Defined.

(** The builder with and without a system prompt. *)
Lemma C3_request_messages_witness :
  (exists request u,
      outcome (ConstructOpenRouterRequest default_config "hi")
      = Return request
      /\ member request "messages" = Some (JArray [u])
      /\ role_of u = Some (JString "user")
      /\ member u "content" = Some (JString "hi"))
  /\ (exists request s u,
         outcome (ConstructOpenRouterRequest
                    {| g_OpenRouterUrl := "https://openrouter.ai/api/v1";
                       g_OpenRouterApiKey := "sk-or-v1-0000";
                       g_OpenRouterModel := "openai/gpt-4o-mini";
                       g_OpenRouterSystemPrompt := "You are an orc.";
                       g_OpenRouterTemperature := float_0_7;
                       g_OpenRouterTopP := float_0_9;
                       g_OpenRouterTopK := 40;
                       g_OpenRouterMaxTokens := 0;
                       g_OpenRouterSeed := "";
                       g_OpenRouterSiteUrl := "";
                       g_OpenRouterSiteName := "";
                       g_DebugEnabled := false |} "hi")
         = Return request
         /\ member request "messages" = Some (JArray [s; u])
         /\ role_of s = Some (JString "system")
         /\ role_of u = Some (JString "user")
         /\ member u "content" = Some (JString "hi")).
Proof.
  split.
  - destruct (C3_request_messages default_config "hi")
      as (request & messages & Hreq & Hm & Hroles & Hcontent).
    simpl in Hroles. destruct Hroles as [Hlen Hroles].
    destruct messages as [|u [|x r]]; try discriminate Hlen.
    exists request, u. split; [exact Hreq|]. split; [exact Hm|].
    injection Hroles as Hu. split; [exact Hu|].
    apply Hcontent; [left; reflexivity | exact Hu].
  - match goal with
    | |- exists request s u,
        outcome (ConstructOpenRouterRequest ?cfg ?prompt) = _ /\ _ =>
        destruct (C3_request_messages cfg prompt)
          as (request & messages & Hreq & Hm & Hroles & Hcontent)
    end.
    simpl in Hroles. destruct Hroles as [Hlen Hroles].
    destruct messages as [|s [|u [|x r]]]; try discriminate Hlen.
    exists request, s, u. split; [exact Hreq|]. split; [exact Hm|].
    injection Hroles as Hs Hu. split; [exact Hs|]. split; [exact Hu|].
    apply Hcontent; [right; left; reflexivity | exact Hu].
Defined.

(* ================================================================== *)
(** * Further properties of the client                                 *)
(* ================================================================== *)

#[local] Arguments String.append : simpl nomatch.

(** ** The seed as decimal text *)

Lemma scan_digits_digit (c : ascii) (r : string) (acc d : Z) (seen : bool) :
  digit_value c = Some d ->
  scan_digits (String c r) acc seen = scan_digits r (10 * acc + d) true.
Proof. intros H. cbn [scan_digits]. rewrite H. reflexivity. Qed.

Lemma scan_digits_stop (rest : string) (acc : Z) (seen : bool) :
  starts_with_digit rest = false -> scan_digits rest acc seen = (acc, seen).
Proof.
  destruct rest as [|c r]; [reflexivity|]. simpl.
  destruct (digit_value c); [discriminate | reflexivity].
Qed.

(** Reads the literal digit at the head of the scanned text. *)
Ltac scan_head_digit :=
  match goal with
  | |- context [scan_digits (String ?c ?r) ?a ?s] =>
      let dv := eval cbv in (digit_value c) in
      match dv with
      | Some ?k => rewrite (scan_digits_digit c r a k s eq_refl)
      end
  end.

(** The digits of [d], read after a non-zero accumulator. *)
Lemma scan_digits_uint_acc (d : Decimal.uint) (rest : string) (acc : positive)
      (seen : bool) :
  starts_with_digit rest = false ->
  scan_digits (NilEmpty.string_of_uint d ++ rest) (Z.pos acc) seen
  = (Z.pos (Pos.of_uint_acc d acc),
     match d with Decimal.Nil => seen | _ => true end).
Proof.
  intros Hrest. revert acc seen.
  induction d; intros acc seen;
    [apply scan_digits_stop, Hrest | ..];
    cbn [NilEmpty.string_of_uint String.append Pos.of_uint_acc];
    scan_head_digit;
    match goal with
    | |- scan_digits _ ?z _ = (Z.pos (Pos.of_uint_acc _ ?p), _) =>
        replace z with (Z.pos p) by lia
    end;
    rewrite IHd; destruct d; reflexivity.
Qed.

(** The digits of [d], read from the start (leading zeros included). *)
Lemma scan_digits_uint (d : Decimal.uint) (rest : string) (seen : bool) :
  starts_with_digit rest = false ->
  scan_digits (NilEmpty.string_of_uint d ++ rest) 0 seen
  = (Z.of_N (Pos.of_uint d),
     match d with Decimal.Nil => seen | _ => true end).
Proof.
  intros Hrest. revert seen.
  induction d; intros seen;
    [apply scan_digits_stop, Hrest | ..];
    cbn [NilEmpty.string_of_uint String.append Pos.of_uint];
    scan_head_digit;
    [rewrite IHd; destruct d; reflexivity | ..];
    cbn [Z.mul Z.add Z.of_N];
    rewrite (scan_digits_uint_acc _ _ _ _ Hrest); destruct d; reflexivity.
Qed.

Lemma c_str_starts_with_digit (rest : string) :
  starts_with_digit rest = false -> starts_with_digit (c_str rest) = false.
Proof.
  destruct rest as [|c r]; [reflexivity|]. simpl.
  destruct (Ascii.eqb c zero); [reflexivity|]. trivial.
Qed.

Lemma to_uint_not_Nil (p : positive) : Pos.to_uint p <> Decimal.Nil.
Proof.
  intros H. pose proof (DecimalPos.Unsigned.of_to p) as E.
  rewrite H in E. discriminate E.
Qed.

Lemma skip_spaces_digits (d : Decimal.uint) (r : string) :
  d <> Decimal.Nil ->
  skip_spaces (NilEmpty.string_of_uint d ++ r) = NilEmpty.string_of_uint d ++ r.
Proof. destruct d; [congruence | ..]; reflexivity. Qed.

(** [stoi] on digits, and on digits after a minus sign. *)
Lemma stoi_digits (d : Decimal.uint) (rest : string) :
  d <> Decimal.Nil ->
  starts_with_digit rest = false ->
  stoi (NilEmpty.string_of_uint d ++ rest)
  = (let v := Z.of_N (Pos.of_uint d) in
     if (INT_MIN <=? v) && (v <=? INT_MAX) then Return v
     else Throw (Exn out_of_range "stoi"))
  /\ stoi (String "-" (NilEmpty.string_of_uint d ++ rest))
     = (let v := - Z.of_N (Pos.of_uint d) in
        if (INT_MIN <=? v) && (v <=? INT_MAX) then Return v
        else Throw (Exn out_of_range "stoi")).
Proof.
  intros Hd Hrest. apply c_str_starts_with_digit in Hrest.
  unfold stoi. split.
  - rewrite c_str_digits, (skip_spaces_digits _ _ Hd).
    replace (match NilEmpty.string_of_uint d ++ c_str rest with
             | String "-"%char r => (true, r)
             | String "+"%char r => (false, r)
             | _ => (false, NilEmpty.string_of_uint d ++ c_str rest)
             end)
      with (false, NilEmpty.string_of_uint d ++ c_str rest)
      by (destruct d; [congruence | ..]; reflexivity).
    cbv beta iota.
    rewrite (scan_digits_uint _ _ _ Hrest).
    destruct d; [congruence | ..]; reflexivity.
  - change (skip_spaces (c_str (String "-" (NilEmpty.string_of_uint d ++ rest))))
      with (String "-" (c_str (NilEmpty.string_of_uint d ++ rest))).
    cbv beta iota.
    rewrite c_str_digits, (scan_digits_uint _ _ _ Hrest).
    destruct d; [congruence | ..]; reflexivity.
Qed.

(** [std::stoi] on the decimal text of [n], whatever follows it. *)
Lemma stoi_to_string (n : Z) (rest : string) :
  starts_with_digit rest = false ->
  stoi (to_string n ++ rest)
  = if (INT_MIN <=? n) && (n <=? INT_MAX) then Return n
    else Throw (Exn out_of_range "stoi").
Proof.
  intros Hrest. unfold to_string.
  destruct n as [|p|p]; cbn [Z.to_int NilZero.string_of_int].
  - apply (stoi_digits (Decimal.D0 Decimal.Nil) rest); [discriminate | exact Hrest].
  - pose proof (to_uint_not_Nil p) as Hnil.
    replace (NilZero.string_of_uint (Pos.to_uint p))
      with (NilEmpty.string_of_uint (Pos.to_uint p))
      by (destruct (Pos.to_uint p); [congruence | ..]; reflexivity).
    rewrite (proj1 (stoi_digits _ rest Hnil Hrest)).
    rewrite DecimalPos.Unsigned.of_to. reflexivity.
  - pose proof (to_uint_not_Nil p) as Hnil.
    replace (NilZero.string_of_uint (Pos.to_uint p))
      with (NilEmpty.string_of_uint (Pos.to_uint p))
      by (destruct (Pos.to_uint p); [congruence | ..]; reflexivity).
    cbn [String.append].
    rewrite (proj2 (stoi_digits _ rest Hnil Hrest)).
    rewrite DecimalPos.Unsigned.of_to. reflexivity.
Qed.

Lemma to_string_not_empty (n : Z) (rest : string) :
  str_empty (to_string n ++ rest) = false.
Proof.
  unfold to_string.
  destruct n as [|p|p]; cbn [Z.to_int NilZero.string_of_int];
    try reflexivity.
  pose proof (to_uint_not_Nil p) as Hnil.
  destruct (Pos.to_uint p); [congruence | ..]; reflexivity.
Qed.

(** X5: a seed configured as the decimal text of an integer [n], possibly
    followed by text that does not start with a digit, is sent as the
    integer [n] when [n] fits an [int], and is left out when it does not. *)
Theorem X5_seed_decimal_text
        (cfg : Config) (prompt : string) (n : Z) (rest : string) :
  g_OpenRouterSeed cfg = to_string n ++ rest ->
  starts_with_digit rest = false ->
  exists request,
    outcome (ConstructOpenRouterRequest cfg prompt) = Return request
    /\ member request "seed"
       = if (INT_MIN <=? n) && (n <=? INT_MAX) then Some (JInteger n)
         else None.
Proof.
  intros Hseed Hrest. exists (JObject (request_members cfg prompt)).
  rewrite ConstructOpenRouterRequest_eq. split; [reflexivity|].
  simpl. rewrite request_member_seed, Hseed, to_string_not_empty.
  rewrite (stoi_to_string _ _ Hrest).
  destruct ((INT_MIN <=? n) && (n <=? INT_MAX)); reflexivity.
Qed.

Lemma X5_seed_decimal_text_witness :
  (exists request,
      outcome (ConstructOpenRouterRequest
                 (with_seed default_config "-2147483648;") "hi")
      = Return request
      /\ member request "seed" = Some (JInteger (-2147483648)))
  /\ (exists request,
         outcome (ConstructOpenRouterRequest
                    (with_seed default_config "2147483648") "hi")
         = Return request
         /\ member request "seed" = None).
Proof.
  split.
  - exact (X5_seed_decimal_text (with_seed default_config "-2147483648;")
             "hi" (-2147483648) ";" eq_refl eq_refl).
  - exact (X5_seed_decimal_text (with_seed default_config "2147483648")
             "hi" 2147483648 "" eq_refl eq_refl).
Defined.

(** ** The write callback *)

Lemma append_assoc (a b c : string) : (a ++ b) ++ c = a ++ (b ++ c).
Proof. induction a as [|x a IH]; simpl; [reflexivity|]. rewrite IH. reflexivity. Qed.

Lemma append_nil_r (a : string) : a ++ "" = a.
Proof. induction a as [|x a IH]; simpl; [reflexivity|]. rewrite IH. reflexivity. Qed.

Lemma concat_cons (x : string) (l : list string) :
  String.concat "" (x :: l) = x ++ String.concat "" l.
Proof. destruct l; simpl; [rewrite append_nil_r|]; reflexivity. Qed.

Lemma fold_WriteCallback (pieces : list string) (buffer : string) :
  fold_left (fun buffer piece => fst (WriteCallback piece buffer))
    pieces buffer
  = buffer ++ String.concat "" pieces.
Proof.
  revert buffer. induction pieces as [|x l IH]; intros buffer.
  - simpl. rewrite append_nil_r. reflexivity.
  - cbn [fold_left]. rewrite IH, concat_cons. unfold WriteCallback.
    cbn [fst]. apply append_assoc.
Qed.

(** X1: the buffer filled by the write callback is the concatenation of
    the pieces in the order they arrive, and each call reports the whole
    piece as taken; so the outcome and the events of a call do not depend
    on how the body is cut into pieces. *)
Theorem X1_WriteCallback_reassembles :
  (forall t, response_buffer t = String.concat "" (chunks t))
  /\ (forall contents buffer,
         snd (WriteCallback contents buffer)
         = Z.of_nat (String.length contents))
  /\ (forall env perform cfg prompt,
         (forall request,
             res (perform request) = res (curl_easy_perform env request)
             /\ response_code (perform request)
                = response_code (curl_easy_perform env request)
             /\ String.concat "" (chunks (perform request))
                = String.concat "" (chunks (curl_easy_perform env request))) ->
         QueryOllamaAPI (with_perform env perform) cfg prompt
         = QueryOllamaAPI env cfg prompt).
Proof.
  assert (Hbuf : forall t, response_buffer t = String.concat "" (chunks t)).
  { intros t. unfold response_buffer. apply fold_WriteCallback. }
  split; [exact Hbuf|]. split; [reflexivity|].
  intros env perform cfg prompt Hsame.
  rewrite !QueryOllamaAPI_eq. cbn [with_perform json_parse float_to_chars
    curl_easy_init curl_easy_perform curl_easy_strerror].
  destruct (str_empty (g_OpenRouterApiKey cfg)); [reflexivity|].
  destruct (negb (curl_easy_init env)); [reflexivity|].
  destruct (dump (float_to_chars env) (JObject (request_members cfg prompt)))
    as [requestDataStr|e]; [|reflexivity].
  cbv zeta.
  destruct (Hsame (build_request cfg requestDataStr)) as (Hres & Hcode & Hc).
  rewrite !Hbuf, Hres, Hcode, Hc. reflexivity.
Qed.

(** A body delivered in one piece, and the same body in three. *)
Lemma X1_WriteCallback_reassembles_witness :
  QueryOllamaAPI
    (with_perform (sample_env true 0 200 body_hello)
       (fun _ => {| res := 0; response_code := 200;
                    chunks := [quoted "{'choices':[{'message':";
                               quoted "{'content':'hel";
                               quoted "lo'}}]}"] |}))
    default_config "hi"
  = QueryOllamaAPI (sample_env true 0 200 body_hello) default_config "hi".
Proof.
  apply (proj2 (proj2 X1_WriteCallback_reassembles)).
  intros request. repeat split.
Defined.

(** ** The request, member by member *)

Lemma request_member_model (cfg : Config) (prompt : string) :
  obj_find "model" (request_members cfg prompt)
  = Some (JString (g_OpenRouterModel cfg)).
Proof. request_cases cfg; reflexivity. Qed.

Lemma request_member_stream (cfg : Config) (prompt : string) :
  obj_find "stream" (request_members cfg prompt) = Some (JBoolean false).
Proof. request_cases cfg; reflexivity. Qed.

Lemma request_member_other (cfg : Config) (prompt key : string) :
  ~ In key request_keys ->
  obj_find key (request_members cfg prompt) = None.
Proof.
  intros Hkey. unfold request_keys in Hkey. simpl in Hkey.
  assert (Hneq : forall k, In k request_keys -> String.eqb key k = false).
  { intros k Hk. apply String.eqb_neq. intros ->. apply Hkey, Hk. }
  unfold request_keys in Hneq.
  pose proof (Hneq "model" ltac:(simpl; tauto)) as H1.
  pose proof (Hneq "messages" ltac:(simpl; tauto)) as H2.
  pose proof (Hneq "temperature" ltac:(simpl; tauto)) as H3.
  pose proof (Hneq "top_p" ltac:(simpl; tauto)) as H4.
  pose proof (Hneq "top_k" ltac:(simpl; tauto)) as H5.
  pose proof (Hneq "max_tokens" ltac:(simpl; tauto)) as H6.
  pose proof (Hneq "seed" ltac:(simpl; tauto)) as H7.
  pose proof (Hneq "stream" ltac:(simpl; tauto)) as H8.
  unfold request_members.
  repeat match goal with
         | |- context [obj_find key (obj_set _ _ _)] => rewrite obj_find_set
         | |- context [obj_find key (if ?b then _ else _)] => destruct b
         | |- context [obj_find key (match ?r with
                                     | Return _ => _ | Throw _ => _ end)] =>
             destruct r
         end;
    rewrite ?H1, ?H2, ?H3, ?H4, ?H5, ?H6, ?H7, ?H8;
    cbn [obj_find]; rewrite ?H1, ?H2; reflexivity.
Qed.

(** X2: the built request always names the configured model and always
    sets "stream" to false; a sampling key that is present holds the
    configured value (the two floats widened to double); and the request
    has no member beyond the eight keys the builder knows. *)
Theorem X2_request_members_complete (cfg : Config) (prompt : string) :
  exists request,
    outcome (ConstructOpenRouterRequest cfg prompt) = Return request
    /\ member request "model" = Some (JString (g_OpenRouterModel cfg))
    /\ member request "stream" = Some (JBoolean false)
    /\ (forall v, member request "temperature" = Some v ->
                  v = JFloat (double_of_float (g_OpenRouterTemperature cfg)))
    /\ (forall v, member request "top_p" = Some v ->
                  v = JFloat (double_of_float (g_OpenRouterTopP cfg)))
    /\ (forall v, member request "top_k" = Some v ->
                  v = JInteger (g_OpenRouterTopK cfg)
                  /\ 0 < g_OpenRouterTopK cfg)
    /\ (forall v, member request "max_tokens" = Some v ->
                  v = JInteger (g_OpenRouterMaxTokens cfg)
                  /\ 0 < g_OpenRouterMaxTokens cfg)
    /\ (forall key, ~ In key request_keys -> member request key = None).
Proof.
  exists (JObject (request_members cfg prompt)).
  rewrite ConstructOpenRouterRequest_eq. split; [reflexivity|]. simpl.
  rewrite request_member_model, request_member_stream,
    request_member_temperature, request_member_top_p,
    request_member_top_k, request_member_max_tokens.
  repeat split.
  - destruct (float_ne _ float_0_7); congruence.
  - destruct (float_ne _ float_0_9); congruence.
  - destruct (g_OpenRouterTopK cfg >? 0); congruence.
  - destruct (g_OpenRouterTopK cfg >? 0) eqn:E; [lia | discriminate].
  - destruct (g_OpenRouterMaxTokens cfg >? 0); congruence.
  - destruct (g_OpenRouterMaxTokens cfg >? 0) eqn:E; [lia | discriminate].
  - intros key Hkey. apply request_member_other, Hkey.
Qed.

Lemma X2_request_members_complete_witness :
  exists request,
    outcome (ConstructOpenRouterRequest default_config "hi") = Return request
    /\ member request "model" = Some (JString "openai/gpt-4o-mini")
    /\ member request "stream" = Some (JBoolean false)
    /\ member request "stop" = None.
Proof.
  destruct (X2_request_members_complete default_config "hi")
    as (request & Hreq & Hmodel & Hstream & _ & _ & _ & _ & Hother).
  exists request. repeat split; try assumption.
  apply Hother. unfold request_keys. simpl.
  intros H. repeat (destruct H as [H|H]; [discriminate H|]). exact H.
Defined.

(** X4: the only line the builder ever logs is the one about a seed it
    could not read, and it logs it exactly when debug logging is on, the
    seed is not empty and [std::stoi] throws on it.  With an empty seed the
    request has no "seed" key and nothing is logged. *)
Theorem X4_builder_log (cfg : Config) (prompt : string) :
  (events (ConstructOpenRouterRequest cfg prompt) = []
   \/ events (ConstructOpenRouterRequest cfg prompt)
      = [LOG_INFO "server.loading"
           ("Invalid seed value, ignoring: " ++ g_OpenRouterSeed cfg)])
  /\ (events (ConstructOpenRouterRequest cfg prompt) <> []
      <-> g_DebugEnabled cfg = true
          /\ g_OpenRouterSeed cfg <> ""
          /\ throws (stoi (g_OpenRouterSeed cfg)))
  /\ (g_OpenRouterSeed cfg = "" ->
      events (ConstructOpenRouterRequest cfg prompt) = []
      /\ exists request,
          outcome (ConstructOpenRouterRequest cfg prompt) = Return request
          /\ member request "seed" = None).
Proof.
  rewrite ConstructOpenRouterRequest_eq. cbn [events outcome fst snd].
  unfold request_log. split; [|split].
  - destruct (str_empty (g_OpenRouterSeed cfg)); [auto|].
    destruct (stoi (g_OpenRouterSeed cfg)); [auto|].
    destruct (g_DebugEnabled cfg); auto.
  - destruct (g_OpenRouterSeed cfg) as [|c s] eqn:Hseed; cbn [str_empty].
    { split; [congruence | intros (_ & H & _); congruence]. }
    destruct (stoi (String c s)) as [v|e].
    { split; [congruence | intros (_ & _ & [e He]); discriminate]. }
    destruct (g_DebugEnabled cfg).
    + split; [|discriminate].
      intros _. repeat split; [discriminate | exists e; reflexivity].
    + split; [congruence | intros (H & _); discriminate].
  - intros Hseed. rewrite Hseed. split; [reflexivity|].
    eexists. split; [reflexivity|]. simpl.
    rewrite request_member_seed, Hseed. reflexivity.
Qed.

Lemma X4_builder_log_witness :
  events (ConstructOpenRouterRequest
            (with_debug (with_seed default_config "abc")) "hi")
  = [LOG_INFO "server.loading" "Invalid seed value, ignoring: abc"]
  /\ events (ConstructOpenRouterRequest (with_debug default_config) "hi")
     = [].
Proof.
  split.
  - destruct (X4_builder_log (with_debug (with_seed default_config "abc"))
                "hi") as ([H|H] & Hiff & _); [|exact H].
    exfalso. apply (proj2 Hiff); [|exact H].
    repeat split; [discriminate | eexists; reflexivity].
  - apply (X4_builder_log (with_debug default_config) "hi"). reflexivity.
Defined.

(** ** The parser on documents of the wrong kind *)

(** X16: a body that parses to anything but an object (an array, a
    string, a number, a boolean, null) has neither "error" nor "choices":
    the parser throws the invalid-format error. *)
Theorem X16_parse_not_an_object
        (parse : string -> result json) (body : string) (response : json) :
  parse body = Return response ->
  (forall members, response <> JObject members) ->
  ParseOpenRouterResponse parse body
  = Throw (Exn runtime_error
             "Invalid response format: missing choices or content").
Proof.
  intros Hp Hkind. rewrite (ParseOpenRouterResponse_parsed _ _ _ Hp).
  destruct response; try reflexivity. elim (Hkind members). reflexivity.
Qed.

Lemma X16_parse_not_an_object_witness :
  ParseOpenRouterResponse Json.parse (quoted "['hello']")
  = Throw (Exn runtime_error
             "Invalid response format: missing choices or content").
Proof.
  apply (X16_parse_not_an_object Json.parse (quoted "['hello']")
           (JArray [JString "hello"]) eq_refl).
  discriminate.
Defined.

(** ** The query function, path by path *)

Lemma transfer_of_dump (env : Env) (cfg : Config) (prompt : string)
      (t : transfer) :
  transfer_of env cfg prompt t ->
  str_empty (g_OpenRouterApiKey cfg) = false
  /\ curl_easy_init env = true
  /\ exists requestDataStr,
      dump (float_to_chars env) (JObject (request_members cfg prompt))
      = Return requestDataStr
      /\ curl_easy_perform env (build_request cfg requestDataStr) = t.
Proof.
  intros (Hkey & Hinit & requestData & requestDataStr & Hc & Hd & Ht).
  rewrite ConstructOpenRouterRequest_eq in Hc. injection Hc as <-.
  split; [apply str_empty_false, Hkey|]. split; [exact Hinit|].
  exists requestDataStr. split; assumption.
Qed.

(** The outcome of a call that reaches the transfer. *)
Lemma QueryOllamaAPI_after_transfer
      (env : Env) (cfg : Config) (prompt : string) (t : transfer) :
  transfer_of env cfg prompt t ->
  outcome (QueryOllamaAPI env cfg prompt)
  = if negb (res t =? CURLE_OK) then Return "Failed to reach OpenRouter AI."
    else
      match HandleOpenRouterErrors (response_code t) (response_buffer t) with
      | Throw _ => Return "AI service error occurred."
      | Return _ =>
          match ParseOpenRouterResponse (json_parse env) (response_buffer t)
          with
          | Throw _ => Return "Error processing response."
          | Return botReply =>
              if str_empty botReply
              then Return "I'm having trouble understanding."
              else Return botReply
          end
      end.
Proof.
  intros H. destruct (transfer_of_dump _ _ _ _ H)
    as (Hkey & Hinit & requestDataStr & Hd & Ht).
  rewrite QueryOllamaAPI_eq, Hkey, Hinit, Hd. cbv zeta. rewrite Ht.
  cbn [negb].
  destruct (negb (res t =? CURLE_OK)); [reflexivity|].
  destruct (HandleOpenRouterErrors _ _); [|reflexivity].
  destruct (ParseOpenRouterResponse _ _) as [botReply|e]; [|reflexivity].
  destruct (str_empty botReply); reflexivity.
Qed.

(** The classifier below and from 400. *)
Lemma HandleOpenRouterErrors_below_400 (code : Z) (body : string) :
  code < 400 -> HandleOpenRouterErrors code body = Return tt.
Proof.
  intros Hcode. unfold HandleOpenRouterErrors.
  destruct (code >=? 400) eqn:E; [lia|].
  destruct code as [|p|p]; try reflexivity.
  do 9 (destruct p as [p|p|]; try reflexivity); discriminate.
Qed.

Lemma HandleOpenRouterErrors_from_400 (code : Z) (body : string) :
  400 <= code -> throws (HandleOpenRouterErrors code body).
Proof.
  intros Hcode. unfold HandleOpenRouterErrors.
  destruct (code >=? 400) eqn:E; [|lia].
  destruct code as [|p|p]; try (eexists; reflexivity).
  do 9 (destruct p as [p|p|]; try (eexists; reflexivity)).
Qed.

(** X10: when the transfer itself fails, the reply is "Failed to reach
    OpenRouter AI." whatever status code and body the transfer left
    behind: neither the classifier nor the parser has a say. *)
Theorem X10_transport_failure_first
        (env : Env) (cfg : Config) (prompt : string) (t : transfer) :
  transfer_of env cfg prompt t ->
  res t <> CURLE_OK ->
  outcome (QueryOllamaAPI env cfg prompt)
  = Return "Failed to reach OpenRouter AI.".
Proof.
  intros H Hres. rewrite (QueryOllamaAPI_after_transfer _ _ _ _ H).
  destruct (res t =? CURLE_OK) eqn:E; [|reflexivity].
  apply Z.eqb_eq in E. contradiction.
Qed.

(** X11: when the transfer succeeds with a status code of 400 or more, the
    reply is "AI service error occurred." whatever the body holds, a
    usable "choices" array included. *)
Theorem X11_http_error_before_body
        (env : Env) (cfg : Config) (prompt : string) (t : transfer) :
  transfer_of env cfg prompt t ->
  res t = CURLE_OK ->
  400 <= response_code t ->
  outcome (QueryOllamaAPI env cfg prompt)
  = Return "AI service error occurred.".
Proof.
  intros H Hres Hcode. rewrite (QueryOllamaAPI_after_transfer _ _ _ _ H).
  rewrite Hres. cbn [Z.eqb CURLE_OK negb].
  destruct (HandleOpenRouterErrors_from_400 _ (response_buffer t) Hcode)
    as [e ->].
  reflexivity.
Qed.

(** X12: when the transfer succeeds with a status code below 400 and the
    parser extracts a reply, the function returns that reply unchanged,
    unless it is empty: then it returns "I'm having trouble
    understanding.". *)
Theorem X12_reply_verbatim
        (env : Env) (cfg : Config) (prompt : string) (t : transfer)
        (botReply : string) :
  transfer_of env cfg prompt t ->
  res t = CURLE_OK ->
  response_code t < 400 ->
  ParseOpenRouterResponse (json_parse env) (response_buffer t)
  = Return botReply ->
  outcome (QueryOllamaAPI env cfg prompt)
  = Return (if str_empty botReply
            then "I'm having trouble understanding." else botReply).
Proof.
  intros H Hres Hcode Hparse.
  rewrite (QueryOllamaAPI_after_transfer _ _ _ _ H).
  rewrite Hres, Hparse. cbn [Z.eqb CURLE_OK negb].
  rewrite (HandleOpenRouterErrors_below_400 _ _ Hcode). destruct (str_empty botReply); reflexivity.
Qed.

(** X17: when the transfer succeeds with a status code below 400 and the
    parser throws, whatever the class of the exception (the parser's own
    runtime errors, the library's type errors, its number overflow), the
    reply is "Error processing response.". *)
Theorem X17_parser_failure_absorbed
        (env : Env) (cfg : Config) (prompt : string) (t : transfer)
        (e : exception) :
  transfer_of env cfg prompt t ->
  res t = CURLE_OK ->
  response_code t < 400 ->
  ParseOpenRouterResponse (json_parse env) (response_buffer t) = Throw e ->
  outcome (QueryOllamaAPI env cfg prompt)
  = Return "Error processing response.".
Proof.
  intros H Hres Hcode Hparse.
  rewrite (QueryOllamaAPI_after_transfer _ _ _ _ H).
  rewrite Hres, Hparse. cbn [Z.eqb CURLE_OK negb].
  rewrite (HandleOpenRouterErrors_below_400 _ _ Hcode). reflexivity.
Qed.

(** The sample surroundings reach the transfer at the default
    configuration. *)
Lemma sample_transfer (r code : Z) (body : string) :
  transfer_of (sample_env true r code body) default_config "hi"
    {| res := r; response_code := code; chunks := [body] |}.
Proof.
  split; [discriminate|]. split; [reflexivity|].
  eexists. eexists. repeat split; reflexivity.
Qed.

Lemma X10_transport_failure_first_witness :
  outcome (QueryOllamaAPI (sample_env true 28 200 body_hello)
             default_config "hi")
  = Return "Failed to reach OpenRouter AI.".
Proof.
  apply (X10_transport_failure_first _ _ _ _
           (sample_transfer 28 200 body_hello)).
  discriminate.
Defined.

Lemma X11_http_error_before_body_witness :
  outcome (QueryOllamaAPI (sample_env true 0 429 body_hello)
             default_config "hi")
  = Return "AI service error occurred.".
Proof.
  apply (X11_http_error_before_body _ _ _ _
           (sample_transfer 0 429 body_hello)); [reflexivity|].
  simpl. lia.
Defined.

Lemma X12_reply_verbatim_witness :
  outcome (QueryOllamaAPI (sample_env true 0 200 body_hello)
             default_config "hi")
  = Return "hello"
  /\ outcome (QueryOllamaAPI (sample_env true 0 200 body_empty_content)
                default_config "hi")
     = Return "I'm having trouble understanding.".
Proof.
  split.
  - apply (X12_reply_verbatim _ _ _ _ "hello"
             (sample_transfer 0 200 body_hello));
      [reflexivity | simpl; lia | reflexivity].
  - apply (X12_reply_verbatim _ _ _ _ ""
             (sample_transfer 0 200 body_empty_content));
      [reflexivity | simpl; lia | reflexivity].
Defined.

Lemma X17_parser_failure_absorbed_witness :
  outcome (QueryOllamaAPI (sample_env true 0 200 body_null_content)
             default_config "hi")
  = Return "Error processing response."
  /\ outcome (QueryOllamaAPI (sample_env true 0 200 body_malformed)
                default_config "hi")
     = Return "Error processing response.".
Proof.
  split.
  - apply (X17_parser_failure_absorbed _ _ _ _
             (type_error "302" "type must be string, but is null")
             (sample_transfer 0 200 body_null_content));
      [reflexivity | simpl; lia | reflexivity].
  - apply (X17_parser_failure_absorbed _ _ _ _
             (Exn runtime_error
                ("Failed to parse JSON response: " ++ what syntax_error))
             (sample_transfer 0 200 body_malformed));
      [reflexivity | simpl; lia | reflexivity].
Defined.

(** X13: the function never returns the empty string. *)
Theorem X13_reply_never_empty
        (env : Env) (cfg : Config) (prompt reply : string) :
  outcome (QueryOllamaAPI env cfg prompt) = Return reply -> reply <> "".
Proof.
  intros H. destruct (QueryOllamaAPI_reply _ _ _ _ H) as [Hin|[Hne _]].
  - unfold fallback_replies in Hin. simpl in Hin.
    repeat (destruct Hin as [<-|Hin]; [discriminate|]). destruct Hin.
  - exact Hne.
Qed.

Lemma X13_reply_never_empty_witness :
  "I'm having trouble understanding." <> "".
Proof.
  apply (X13_reply_never_empty (sample_env true 0 200 body_empty_content)
           default_config "hi").
  reflexivity.
Defined.

(** ** Logging *)

Lemma filter_logs (l : list event) :
  (forall e, In e l -> is_log e) -> filter not_log l = [].
Proof.
  induction l as [|e l IH]; intros H; [reflexivity|]. simpl.
  pose proof (H e (or_introl eq_refl)) as He.
  destruct e; try destruct He. simpl. apply IH.
  intros e' He'. apply H. right. exact He'.
Qed.

Lemma filter_debug_events (cfg : Config) (message : string) :
  filter not_log (debug_events cfg message) = [].
Proof. apply filter_logs. intros e. apply debug_events_log. Qed.

Lemma filter_request_log (cfg : Config) :
  filter not_log (request_log cfg) = [].
Proof. apply filter_logs. intros e. apply request_log_log. Qed.

Lemma filter_sent_events (cfg : Config) (request : http_request)
      (message : string) :
  filter not_log (sent_events cfg request (debug_events cfg message))
  = [ev_curl_easy_init true; ev_curl_easy_perform request;
     ev_curl_slist_free_all; ev_curl_easy_cleanup].
Proof.
  unfold sent_events. cbn [filter not_log].
  rewrite filter_app, filter_request_log. cbn [app filter not_log].
  rewrite filter_debug_events. reflexivity.
Qed.

Lemma request_log_quiet (cfg : Config) : request_log (set_debug false cfg) = [].
Proof.
  unfold request_log. cbn [set_debug g_OpenRouterSeed g_DebugEnabled].
  destruct (str_empty (g_OpenRouterSeed cfg)); [reflexivity|].
  destruct (stoi (g_OpenRouterSeed cfg)); reflexivity.
Qed.

(** The events of a call, logging apart. *)
Lemma QueryOllamaAPI_actions (env : Env) (cfg : Config) (prompt : string) :
  filter not_log (events (QueryOllamaAPI env cfg prompt))
  = if str_empty (g_OpenRouterApiKey cfg) then []
    else if negb (curl_easy_init env) then [ev_curl_easy_init false]
    else
      match dump (float_to_chars env) (JObject (request_members cfg prompt))
      with
      | Throw _ => [ev_curl_easy_init true]
      | Return requestDataStr =>
          [ev_curl_easy_init true;
           ev_curl_easy_perform (build_request cfg requestDataStr);
           ev_curl_slist_free_all; ev_curl_easy_cleanup]
      end.
Proof.
  rewrite QueryOllamaAPI_eq.
  destruct (str_empty (g_OpenRouterApiKey cfg)).
  { apply filter_debug_events. }
  destruct (negb (curl_easy_init env)).
  { cbn [events fst filter not_log]. rewrite filter_debug_events.
    reflexivity. }
  destruct (dump (float_to_chars env) (JObject (request_members cfg prompt)))
    as [requestDataStr|e].
  2:{ cbn [events fst filter not_log]. rewrite filter_request_log.
      reflexivity. }
  cbv zeta.
  destruct (negb (res _ =? CURLE_OK)); [apply filter_sent_events|].
  destruct (HandleOpenRouterErrors _ _); [|apply filter_sent_events].
  destruct (ParseOpenRouterResponse _ _) as [botReply|e];
    [|apply filter_sent_events].
  destruct (str_empty botReply); apply filter_sent_events.
Qed.

(** The outcome of a call, in closed form. *)
Lemma QueryOllamaAPI_outcome (env : Env) (cfg : Config) (prompt : string) :
  outcome (QueryOllamaAPI env cfg prompt)
  = if str_empty (g_OpenRouterApiKey cfg)
    then Return "AI service not properly configured."
    else if negb (curl_easy_init env)
    then Return "Hmm... I'm lost in thought."
    else
      match dump (float_to_chars env) (JObject (request_members cfg prompt))
      with
      | Throw e => Throw e
      | Return requestDataStr =>
          let t := curl_easy_perform env (build_request cfg requestDataStr) in
          if negb (res t =? CURLE_OK)
          then Return "Failed to reach OpenRouter AI."
          else
            match HandleOpenRouterErrors (response_code t) (response_buffer t)
            with
            | Throw _ => Return "AI service error occurred."
            | Return _ =>
                match ParseOpenRouterResponse (json_parse env)
                        (response_buffer t) with
                | Throw _ => Return "Error processing response."
                | Return botReply =>
                    if str_empty botReply
                    then Return "I'm having trouble understanding."
                    else Return botReply
                end
            end
      end.
Proof.
  rewrite QueryOllamaAPI_eq.
  destruct (str_empty (g_OpenRouterApiKey cfg)); [reflexivity|].
  destruct (negb (curl_easy_init env)); [reflexivity|].
  destruct (dump (float_to_chars env) (JObject (request_members cfg prompt)))
    as [requestDataStr|e]; [|reflexivity].
  cbv zeta.
  destruct (negb (res _ =? CURLE_OK)); [reflexivity|].
  destruct (HandleOpenRouterErrors _ _); [|reflexivity].
  destruct (ParseOpenRouterResponse _ _) as [botReply|e]; [|reflexivity].
  destruct (str_empty botReply); reflexivity.
Qed.

(** X14: the debug flag changes nothing but the log: the outcome and the
    sequence of libcurl calls are the same with the flag on or off, and
    with the flag off nothing at all is logged. *)
Theorem X14_debug_flag_only_logs
        (env : Env) (cfg : Config) (prompt : string) (b : bool) :
  outcome (QueryOllamaAPI env (set_debug b cfg) prompt)
  = outcome (QueryOllamaAPI env cfg prompt)
  /\ filter not_log (events (QueryOllamaAPI env (set_debug b cfg) prompt))
     = filter not_log (events (QueryOllamaAPI env cfg prompt))
  /\ events (QueryOllamaAPI env (set_debug false cfg) prompt)
     = filter not_log (events (QueryOllamaAPI env cfg prompt)).
Proof.
  split; [|split].
  - rewrite !QueryOllamaAPI_outcome. reflexivity.
  - rewrite !QueryOllamaAPI_actions. reflexivity.
  - rewrite QueryOllamaAPI_actions, QueryOllamaAPI_eq.
    change (request_members (set_debug false cfg) prompt)
      with (request_members cfg prompt).
    change (g_OpenRouterApiKey (set_debug false cfg))
      with (g_OpenRouterApiKey cfg).
    assert (Hq : forall message, debug_events (set_debug false cfg) message = [])
      by reflexivity.
    destruct (str_empty (g_OpenRouterApiKey cfg)); [reflexivity|].
    destruct (negb (curl_easy_init env)); [reflexivity|].
    destruct (dump (float_to_chars env) (JObject (request_members cfg prompt)))
      as [requestDataStr|e].
    2:{ cbn [events fst]. rewrite request_log_quiet. reflexivity. }
    cbv zeta.
    change (build_request (set_debug false cfg) requestDataStr)
      with (build_request cfg requestDataStr).
    unfold sent_events. rewrite request_log_quiet.
    destruct (negb (res _ =? CURLE_OK)); [reflexivity|].
    destruct (HandleOpenRouterErrors _ _); [|reflexivity].
    destruct (ParseOpenRouterResponse _ _) as [botReply|e]; [|reflexivity].
    destruct (str_empty botReply); reflexivity.
Qed.

(** ** When the function throws *)

Lemma dump_request_throws_any
      (ftc : spec_float -> string) (cfg : Config) (prompt : string) :
  utf8_valid (g_OpenRouterModel cfg) = false
  \/ utf8_valid (g_OpenRouterSystemPrompt cfg) = false
  \/ utf8_valid prompt = false ->
  throws (dump ftc (JObject (request_members cfg prompt))).
Proof.
  intros [Hmodel|[Hsystem|Hprompt]].
  - apply (dump_object_throws ftc _ "model"
             (JString (g_OpenRouterModel cfg))).
    + apply obj_find_In, request_member_model.
    + apply dump_string_invalid, Hmodel.
  - apply (dump_object_throws ftc _ "messages"
             (JArray (request_messages cfg prompt))).
    + apply obj_find_In, request_member_messages.
    + apply (dump_array_throws ftc _ (system_message cfg)).
      * unfold request_messages.
        destruct (g_OpenRouterSystemPrompt cfg) eqn:E;
          [discriminate Hsystem|]. left. reflexivity.
      * apply (dump_object_throws ftc _ "content"
                 (JString (g_OpenRouterSystemPrompt cfg))).
        -- left. reflexivity.
        -- apply dump_string_invalid, Hsystem.
  - apply dump_request_throws, Hprompt.
Qed.

(** X15: the function throws exactly when the key is set, a handle is
    obtained, and the model name, the system prompt or the prompt is not
    valid UTF-8; on every other call it returns. *)
Theorem X15_throws_iff_not_utf8
        (env : Env) (cfg : Config) (prompt : string) :
  throws (outcome (QueryOllamaAPI env cfg prompt))
  <-> g_OpenRouterApiKey cfg <> ""
      /\ curl_easy_init env = true
      /\ (utf8_valid (g_OpenRouterModel cfg) = false
          \/ utf8_valid (g_OpenRouterSystemPrompt cfg) = false
          \/ utf8_valid prompt = false).
Proof.
  split.
  - intros [e He]. apply QueryOllamaAPI_throws_iff in He.
    destruct He as (Hkey & Hinit & Hd).
    split; [exact Hkey|]. split; [exact Hinit|].
    destruct (utf8_valid (g_OpenRouterModel cfg)) eqn:Hm; [|auto].
    destruct (utf8_valid (g_OpenRouterSystemPrompt cfg)) eqn:Hs; [|auto].
    destruct (utf8_valid prompt) eqn:Hp; [|auto].
    destruct (dump_request_returns (float_to_chars env) cfg prompt Hm Hs Hp)
      as [text Ht].
    congruence.
  - intros (Hkey & Hinit & Hbad).
    destruct (dump_request_throws_any (float_to_chars env) cfg prompt Hbad)
      as [e He].
    exists e. apply QueryOllamaAPI_throws_iff. auto.
Qed.

(** ** What is sent *)

Lemma filter_filter (p q : event -> bool) (l : list event) :
  (forall e, p e = true -> q e = true) ->
  filter p (filter q l) = filter p l.
Proof.
  intros H. induction l as [|e l IH]; [reflexivity|]. simpl.
  destruct (q e) eqn:Hq; simpl.
  - rewrite IH. reflexivity.
  - destruct (p e) eqn:Hp; [|exact IH].
    rewrite (H e Hp) in Hq. discriminate.
Qed.

Lemma In_filter_not_log (e : event) (l : list event) :
  not_log e = true -> (In e l <-> In e (filter not_log l)).
Proof.
  intros He. rewrite filter_In. tauto.
Qed.

(** The transfer a call makes, if it makes one. *)
Lemma QueryOllamaAPI_perform
      (env : Env) (cfg : Config) (prompt : string) (request : http_request) :
  In (ev_curl_easy_perform request) (events (QueryOllamaAPI env cfg prompt))
  <-> g_OpenRouterApiKey cfg <> ""
      /\ curl_easy_init env = true
      /\ exists requestData requestDataStr,
          outcome (ConstructOpenRouterRequest cfg prompt) = Return requestData
          /\ dump (float_to_chars env) requestData = Return requestDataStr
          /\ request = build_request cfg requestDataStr.
Proof.
  rewrite (In_filter_not_log _ _
             (eq_refl : not_log (ev_curl_easy_perform request) = true)).
  rewrite QueryOllamaAPI_actions, ConstructOpenRouterRequest_eq.
  cbn [outcome snd].
  destruct (g_OpenRouterApiKey cfg) eqn:Hkey; cbn [str_empty].
  { split; [intros [] | intros (H & _); congruence]. }
  destruct (curl_easy_init env); cbn [negb].
  2:{ split; [intros [H|[]]; discriminate H
             | intros (_ & H & _); discriminate H]. }
  destruct (dump (float_to_chars env) (JObject (request_members cfg prompt)))
    as [requestDataStr|e] eqn:Hd.
  - split.
    + intros [H|[H|[H|[H|[]]]]]; try discriminate H.
      injection H as <-.
      split; [discriminate|]. split; [reflexivity|].
      exists (JObject (request_members cfg prompt)), requestDataStr.
      repeat split. exact Hd.
    + intros (_ & _ & requestData & text & [= <-] & Ht & ->).
      rewrite Hd in Ht. injection Ht as <-. right. left. reflexivity.
  - split.
    + intros [H|[]]. discriminate H.
    + intros (_ & _ & requestData & text & [= <-] & Ht & _).
      rewrite Hd in Ht. discriminate Ht.
Qed.

(** X9: a call makes at most one transfer, and it makes one exactly when
    the key is set, a handle is obtained and the built request dumps; the
    request it sends is then the one built from that dump. *)
Theorem X9_single_transfer (env : Env) (cfg : Config) (prompt : string) :
  (length (filter is_perform (events (QueryOllamaAPI env cfg prompt)))
   <= 1)%nat
  /\ (forall request,
         In (ev_curl_easy_perform request)
            (events (QueryOllamaAPI env cfg prompt))
         <-> g_OpenRouterApiKey cfg <> ""
             /\ curl_easy_init env = true
             /\ exists requestData requestDataStr,
                 outcome (ConstructOpenRouterRequest cfg prompt)
                 = Return requestData
                 /\ dump (float_to_chars env) requestData
                    = Return requestDataStr
                 /\ request = build_request cfg requestDataStr).
Proof.
  split; [|intros request; apply QueryOllamaAPI_perform].
  rewrite <- (filter_filter is_perform not_log)
    by (intros [] H; try discriminate H; reflexivity).
  rewrite QueryOllamaAPI_actions.
  destruct (str_empty (g_OpenRouterApiKey cfg)); [simpl; lia|].
  destruct (negb (curl_easy_init env)); [simpl; lia|].
  destruct (dump _ _); simpl; lia.
Qed.

(** X8: a call that returns has released what it obtained: either it
    asked for no handle, or it got none, or it got one, made its transfer,
    freed the header list and cleaned the handle up, each once and in that
    order. *)
Theorem X8_handle_released_on_return
        (env : Env) (cfg : Config) (prompt reply : string) :
  outcome (QueryOllamaAPI env cfg prompt) = Return reply ->
  filter not_log (events (QueryOllamaAPI env cfg prompt)) = []
  \/ filter not_log (events (QueryOllamaAPI env cfg prompt))
     = [ev_curl_easy_init false]
  \/ exists request,
      filter not_log (events (QueryOllamaAPI env cfg prompt))
      = [ev_curl_easy_init true; ev_curl_easy_perform request;
         ev_curl_slist_free_all; ev_curl_easy_cleanup].
Proof.
  rewrite QueryOllamaAPI_outcome, QueryOllamaAPI_actions.
  destruct (str_empty (g_OpenRouterApiKey cfg)); [auto|].
  destruct (negb (curl_easy_init env)); [auto|].
  destruct (dump (float_to_chars env) (JObject (request_members cfg prompt)))
    as [requestDataStr|e]; [|discriminate].
  intros _. right. right. eexists. reflexivity.
Qed.

Lemma c_str_authorization (key : string) :
  c_str ("Authorization: Bearer " ++ key)
  = "Authorization: Bearer " ++ c_str key.
Proof. reflexivity. Qed.

Lemma c_str_referer (url : string) :
  c_str ("HTTP-Referer: " ++ url) = "HTTP-Referer: " ++ c_str url.
Proof. reflexivity. Qed.

Lemma c_str_title (name : string) :
  c_str ("X-Title: " ++ name) = "X-Title: " ++ c_str name.
Proof. reflexivity. Qed.

(** X6: every transfer carries, in this order, the bearer authorization
    with the configured key, the JSON content type, the referer when a
    site URL is configured and the title when a site name is configured,
    and no other header; each configured text is cut at its first NUL
    byte, as a C string is. *)
Theorem X6_transfer_headers
        (env : Env) (cfg : Config) (prompt : string)
        (request : http_request) :
  In (ev_curl_easy_perform request) (events (QueryOllamaAPI env cfg prompt)) ->
  CURLOPT_HTTPHEADER request
  = ([("Authorization: Bearer " ++ c_str (g_OpenRouterApiKey cfg))%string;
      "Content-Type: application/json"]
       ++ (if str_empty (g_OpenRouterSiteUrl cfg) then []
           else [("HTTP-Referer: "
                    ++ c_str (g_OpenRouterSiteUrl cfg))%string])
       ++ (if str_empty (g_OpenRouterSiteName cfg) then []
           else [("X-Title: "
                    ++ c_str (g_OpenRouterSiteName cfg))%string]))%list.
Proof.
  intros H. apply QueryOllamaAPI_perform in H.
  destruct H as (_ & _ & requestData & requestDataStr & _ & _ & ->).
  unfold build_request. cbn [CURLOPT_HTTPHEADER].
  rewrite c_str_authorization, c_str_referer, c_str_title.
  destruct (str_empty (g_OpenRouterSiteUrl cfg));
    destruct (str_empty (g_OpenRouterSiteName cfg)); reflexivity.
Qed.

(** X7: every transfer is a POST to the configured URL with a total
    timeout of 30 and a connect timeout of 10; its body is the dump of the
    request built for the prompt, and the size given to libcurl is the
    length of that body. *)
Theorem X7_transfer_body_and_options
        (env : Env) (cfg : Config) (prompt : string)
        (request : http_request) :
  In (ev_curl_easy_perform request) (events (QueryOllamaAPI env cfg prompt)) ->
  CURLOPT_URL request = c_str (g_OpenRouterUrl cfg)
  /\ CURLOPT_POST request = 1
  /\ CURLOPT_TIMEOUT request = 30
  /\ CURLOPT_CONNECTTIMEOUT request = 10
  /\ CURLOPT_POSTFIELDSIZE request
     = Z.of_nat (String.length (CURLOPT_POSTFIELDS request))
  /\ exists requestData,
      outcome (ConstructOpenRouterRequest cfg prompt) = Return requestData
      /\ dump (float_to_chars env) requestData
         = Return (CURLOPT_POSTFIELDS request).
Proof.
  intros H. apply QueryOllamaAPI_perform in H.
  destruct H as (_ & _ & requestData & requestDataStr & Hc & Hd & ->).
  cbn [build_request CURLOPT_URL CURLOPT_POST CURLOPT_TIMEOUT
         CURLOPT_CONNECTTIMEOUT CURLOPT_POSTFIELDSIZE CURLOPT_POSTFIELDS].
  repeat split. exists requestData. split; assumption.
Qed.

(** ** More on the parser *)

(** X3: the parser returns text in one case only: the body parses, has no
    top-level "error" key, its "choices" member is a non-empty array, and
    the first choice's message has a string as "content"; the text is that
    string. *)
Theorem X3_parse_returns_only_content
        (parse : string -> result json) (body reply : string) :
  ParseOpenRouterResponse parse body = Return reply ->
  exists response choice others message,
    parse body = Return response
    /\ contains response "error" = false
    /\ member response "choices" = Some (JArray (choice :: others))
    /\ member choice "message" = Some message
    /\ member message "content" = Some (JString reply).
Proof.
  intros H.
  destruct (parse body) as [response|e] eqn:Hp.
  2:{ unfold ParseOpenRouterResponse in H. rewrite Hp in H.
      cbn [bind try_catch] in H.
      destruct (exn_class_eqb json_parse_error (class_of e)); discriminate. }
  rewrite (ParseOpenRouterResponse_parsed _ _ _ Hp) in H.
  unfold extract_reply in H.
  destruct (contains response "error") eqn:He.
  { destruct (at_key response "error") as [error|e]; [|discriminate].
    cbn [bind] in H.
    destruct (contains error "message"); [|discriminate].
    destruct (at_key error "message") as [m|e]; [|discriminate].
    cbn [bind] in H. destruct (get_string m); discriminate. }
  destruct (contains response "choices") eqn:Hc; [|discriminate].
  destruct response as [| | | | | |?|members]; try discriminate Hc.
  cbn [contains at_key bind] in Hc, H.
  destruct (obj_find "choices" members) as [choices|] eqn:Hchoices;
    [|discriminate].
  destruct (negb (empty choices)) eqn:Hempty; [|discriminate].
  destruct choices as [| | | | | |elements|?]; try discriminate.
  destruct elements as [|choice others]; [discriminate|].
  cbn [at_index nth bind] in H.
  destruct (contains choice "message") eqn:Hm; [|discriminate].
  destruct choice as [| | | | | |?|cm]; try discriminate Hm.
  cbn [contains at_key bind] in Hm, H.
  destruct (obj_find "message" cm) as [message|] eqn:Hmessage;
    [|discriminate].
  destruct (contains message "content") eqn:Hct; [|discriminate].
  destruct message as [| | | | | |?|mm]; try discriminate Hct.
  cbn [contains at_key bind] in Hct, H.
  destruct (obj_find "content" mm) as [content|] eqn:Hcontent;
    [|discriminate].
  destruct content; try discriminate. injection H as ->.
  exists (JObject members), (JObject cm), others, (JObject mm).
  repeat split; assumption.
Qed.

Lemma X3_parse_returns_only_content_witness :
  exists response choice others message,
    Json.parse body_hello = Return response
    /\ contains response "error" = false
    /\ member response "choices" = Some (JArray (choice :: others))
    /\ member choice "message" = Some message
    /\ member message "content" = Some (JString "hello").
Proof.
  apply (X3_parse_returns_only_content Json.parse body_hello "hello").
  reflexivity.
Defined.

(** X18: what the parser does with a body that has no "error" key and a
    non-empty "choices" array depends on the first choice alone: two such
    bodies with the same first choice give the same result, whatever the
    other choices and the other members are. *)
Theorem X18_parse_first_choice_only
        (parse : string -> result json) (body1 body2 : string)
        (response1 response2 choice : json) (others1 others2 : list json) :
  parse body1 = Return response1 ->
  parse body2 = Return response2 ->
  contains response1 "error" = false ->
  contains response2 "error" = false ->
  member response1 "choices" = Some (JArray (choice :: others1)) ->
  member response2 "choices" = Some (JArray (choice :: others2)) ->
  ParseOpenRouterResponse parse body1 = ParseOpenRouterResponse parse body2.
Proof.
  intros Hp1 Hp2 He1 He2 Hc1 Hc2.
  rewrite (ParseOpenRouterResponse_parsed _ _ _ Hp1),
    (ParseOpenRouterResponse_parsed _ _ _ Hp2).
  unfold extract_reply. rewrite He1, He2.
  rewrite (contains_true _ _ _ Hc1), (contains_true _ _ _ Hc2).
  rewrite (at_key_member _ _ _ Hc1), (at_key_member _ _ _ Hc2).
  reflexivity.
Qed.

Lemma X18_parse_first_choice_only_witness :
  ParseOpenRouterResponse Json.parse
    (quoted "{'choices':[{'message':{'content':'a'}},{'message':{'content':'b'}}],'id':7}")
  = ParseOpenRouterResponse Json.parse
      (quoted "{'choices':[{'message':{'content':'a'}}]}").
Proof.
  eapply (X18_parse_first_choice_only Json.parse); reflexivity.
Defined.

(** X19: a seed that reaches the request is an integer in the range of
    [int], and it comes from a non-empty configured seed. *)
Theorem X19_seed_in_int_range
        (cfg : Config) (prompt : string) (request v : json) :
  outcome (ConstructOpenRouterRequest cfg prompt) = Return request ->
  member request "seed" = Some v ->
  g_OpenRouterSeed cfg <> ""
  /\ exists n, v = JInteger n /\ INT_MIN <= n <= INT_MAX.
Proof.
  rewrite ConstructOpenRouterRequest_eq. intros [= <-] H.
  simpl in H. rewrite request_member_seed in H.
  destruct (g_OpenRouterSeed cfg) as [|c s] eqn:Hseed; [discriminate|].
  split; [discriminate|]. cbn [str_empty] in H.
  destruct (stoi (String c s)) as [n|e] eqn:Hs; [|discriminate].
  injection H as <-. exists n. split; [reflexivity|].
  unfold stoi in Hs.
  destruct (match skip_spaces (c_str (String c s)) with
            | String "-"%char r => (true, r)
            | String "+"%char r => (false, r)
            | _ => (false, skip_spaces (c_str (String c s)))
            end) as [negative digits].
  destruct (scan_digits digits 0 false) as [magnitude seen].
  destruct (negb seen); [discriminate|].
  destruct ((INT_MIN <=? (if negative then - magnitude else magnitude))
            && ((if negative then - magnitude else magnitude) <=? INT_MAX))
    eqn:Hrange; [|discriminate].
  injection Hs as <-. apply andb_prop in Hrange. lia.
Qed.

Lemma X19_seed_in_int_range_witness :
  exists n, JInteger 42 = JInteger n /\ INT_MIN <= n <= INT_MAX.
Proof.
  apply (X19_seed_in_int_range (with_seed default_config " 42 ") "hi"
           (JObject (request_members (with_seed default_config " 42 ") "hi"))
           (JInteger 42));
    reflexivity.
Defined.

Lemma X6_transfer_headers_witness :
  CURLOPT_HTTPHEADER
    (build_request attributed_config
       (quoted "{'messages':[{'content':'hi','role':'user'}],'model':'openai/gpt-4o-mini','stream':false}"))
  = ["Authorization: Bearer sk-or-v1-0000";
     "Content-Type: application/json";
     "HTTP-Referer: https://example.org";
     "X-Title: Azeroth"].
Proof.
  exact (X6_transfer_headers (sample_env true 0 200 body_hello)
           attributed_config "hi" _ (or_intror (or_introl eq_refl))).
Defined.

Lemma X7_transfer_body_and_options_witness :
  exists request,
    In (ev_curl_easy_perform request)
       (events (QueryOllamaAPI (sample_env true 0 200 body_hello)
                  default_config "hi"))
    /\ CURLOPT_TIMEOUT request = 30
    /\ CURLOPT_CONNECTTIMEOUT request = 10
    /\ CURLOPT_POSTFIELDSIZE request = 89.
Proof.
  eexists. split; [right; left; reflexivity|].
  match goal with
  | |- CURLOPT_TIMEOUT ?r = _ /\ _ =>
      destruct (X7_transfer_body_and_options
                  (sample_env true 0 200 body_hello) default_config "hi" r
                  (or_intror (or_introl eq_refl)))
        as (_ & _ & Ht & Hc & Hs & _)
  end.
  split; [exact Ht|]. split; [exact Hc|]. rewrite Hs. reflexivity.
Defined.

Lemma X8_handle_released_on_return_witness :
  exists request,
    filter not_log
      (events (QueryOllamaAPI (sample_env true 0 500 "")
                 (with_debug default_config) "hi"))
    = [ev_curl_easy_init true; ev_curl_easy_perform request;
       ev_curl_slist_free_all; ev_curl_easy_cleanup].
Proof.
  destruct (X8_handle_released_on_return (sample_env true 0 500 "")
              (with_debug default_config) "hi"
              "AI service error occurred." eq_refl)
    as [H|[H|H]]; [discriminate H | discriminate H | exact H].
Defined.

Lemma X9_single_transfer_witness :
  exists request,
    In (ev_curl_easy_perform request)
       (events (QueryOllamaAPI (sample_env true 0 200 body_hello)
                  default_config "hi")).
Proof.
  eexists.
  apply (proj2 (X9_single_transfer (sample_env true 0 200 body_hello)
                  default_config "hi")).
  split; [discriminate|]. split; [reflexivity|].
  eexists. eexists. repeat split; reflexivity.
Defined.

Lemma X15_throws_iff_not_utf8_witness :
  throws (outcome (QueryOllamaAPI (sample_env true 0 200 body_hello)
                     default_config (String "192" "A"))).
Proof.
  apply (X15_throws_iff_not_utf8 (sample_env true 0 200 body_hello)
           default_config (String "192" "A")).
  split; [discriminate|]. split; [reflexivity|].
  right. right. reflexivity.
Defined.

Lemma utf8_check_ascii (s : string) (i : Z) (last : ascii) :
  is_ascii s = true -> utf8_check s utf8_accept i last = Return tt.
Proof.
  revert i last. induction s as [|c r IH]; intros i last H; [reflexivity|].
  cbn [is_ascii] in H. apply andb_prop in H. destruct H as [Hc Hr].
  cbn [utf8_check utf8_step]. unfold in_range.
  apply Nat.ltb_lt in Hc.
  replace (Nat.leb 0 (nat_of_ascii c) && Nat.leb (nat_of_ascii c) 127)%bool
    with true.
  - apply IH, Hr.
  - symmetry. apply andb_true_intro. split; apply Nat.leb_le; lia.
Qed.

(** X20: a call whose model name, system prompt and prompt are plain
    ASCII never throws: it returns one of the fixed replies or the
    non-empty text the parser extracted, whatever the parser and the
    network do. *)
Theorem X20_ascii_call_returns
        (env : Env) (cfg : Config) (prompt : string) :
  is_ascii (g_OpenRouterModel cfg) = true ->
  is_ascii (g_OpenRouterSystemPrompt cfg) = true ->
  is_ascii prompt = true ->
  exists reply,
    outcome (QueryOllamaAPI env cfg prompt) = Return reply
    /\ reply <> ""
    /\ (In reply fallback_replies
        \/ exists body,
            ParseOpenRouterResponse (json_parse env) body = Return reply).
Proof.
  intros Hm Hs Hp.
  assert (Hvalid : forall s, is_ascii s = true -> utf8_valid s = true).
  { intros s H. unfold utf8_valid. rewrite (utf8_check_ascii _ _ _ H).
    reflexivity. }
  destruct (QueryOllamaAPI_returns_on_utf8 env cfg prompt
              (Hvalid _ Hm) (Hvalid _ Hs) (Hvalid _ Hp))
    as (reply & Ho & Hr).
  exists reply. split; [exact Ho|]. split.
  - destruct Hr as [Hin|[Hne _]]; [|exact Hne].
    unfold fallback_replies in Hin. simpl in Hin.
    repeat (destruct Hin as [<-|Hin]; [discriminate|]). destruct Hin.
  - destruct Hr as [Hin|[_ Hb]]; [left; exact Hin | right; exact Hb].
Qed.

Lemma X20_ascii_call_returns_witness :
  exists reply,
    outcome (QueryOllamaAPI (sample_env true 0 200 body_malformed)
               default_config "What's the way to Orgrimmar?")
    = Return reply
    /\ reply <> "".
Proof.
  destruct (X20_ascii_call_returns (sample_env true 0 200 body_malformed)
              default_config "What's the way to Orgrimmar?"
              eq_refl eq_refl eq_refl) as (reply & Ho & Hne & _).
  exists reply. split; assumption.
Defined.
